(** * parse-server-otp-auth-adapter: the OTP life cycle

    A shallow embedding of [src/index.ts]: the OTP adapter of a Parse
    Server ([validateAuthData], [challenge], [validateOptions]) over a
    model of the [OTP] table, and the properties of its life cycle.

    The adapter is asynchronous code over an external store.  Its methods
    are embedded as terms of a small free monad [prog] whose nodes are the
    operations the methods perform on their collaborators ([query.first],
    [destroy], [save], [sendEmail], [new Date()], [crypto.randomInt]);
    [run] executes a program to completion on a [World] (one call at a
    time), [step] executes it up to its next [await], which gives the
    interleavings of concurrent calls. *)

From Stdlib Require Import ZArith QArith Qround Qabs List String Ascii Bool Lia.
From Stdlib Require Import DecimalString DecimalZ.
Import ListNotations.

Local Open Scope string_scope.
Local Open Scope Z_scope.

(** ** JavaScript values *)

Module JS.

(** A JavaScript number: a finite double is modelled by the rational it
    denotes (comparisons of doubles are comparisons of these rationals;
    sums are exact on the integers of the safe range, which is where the
    adapter adds). *)
Inductive number : Type :=
| NaN
| PosInf
| NegInf
| Finite (q : Q).

Definition of_Z (z : Z) : number := Finite (inject_Z z).

(** [a <= b] of JavaScript: false as soon as one operand is NaN. *)
Definition le (a b : number) : bool :=
  match a, b with
  | NaN, _ | _, NaN => false
  | NegInf, _ => true
  | _, PosInf => true
  | Finite x, Finite y => Qle_bool x y
  | _, _ => false
  end.

(** [a < b] of JavaScript. *)
Definition lt (a b : number) : bool :=
  match a, b with
  | NaN, _ | _, NaN => false
  | PosInf, _ => false
  | _, NegInf => false
  | Finite x, Finite y => negb (Qle_bool y x)
  | _, _ => true
  end.

Definition ge (a b : number) : bool := le b a.
Definition gt (a b : number) : bool := lt b a.

Definition add (a b : number) : number :=
  match a, b with
  | NaN, _ | _, NaN => NaN
  | PosInf, NegInf | NegInf, PosInf => NaN
  | PosInf, _ | _, PosInf => PosInf
  | NegInf, _ | _, NegInf => NegInf
  | Finite x, Finite y => Finite (x + y)
  end.

(** A number is a strictly positive integer (what the specification asks
    of [maxAttempts]). *)
Definition is_positive_integer (n : number) : bool :=
  match n with
  | Finite q => Qle_bool 1 q && Qeq_bool q (inject_Z (Qfloor q))
  | _ => false
  end.

(** Run-time values, as far as [validateOptions] inspects them: an
    object is the map from its property names to their values.
    [VOtpAdapter] is an instance of the class [OtpAdapter]. *)
Inductive value : Type :=
| VUndefined
| VNull
| VBool (b : bool)
| VNumber (n : number)
| VString (s : string)
| VFunction
| VObject (props : string -> value)
| VOtpAdapter.

(** [!!v] *)
Definition truthy (v : value) : bool :=
  match v with
  | VUndefined | VNull => false
  | VBool b => b
  | VNumber NaN => false
  | VNumber (Finite q) => negb (Qeq_bool q 0)
  | VNumber _ => true
  | VString s => negb (String.eqb s "")
  | VFunction | VObject _ | VOtpAdapter => true
  end.

Inductive type_tag : Type :=
| TUndefined | TObject | TBoolean | TNumber | TString | TFunction.

(** [typeof v] *)
Definition typeof (v : value) : type_tag :=
  match v with
  | VUndefined => TUndefined
  | VNull => TObject
  | VBool _ => TBoolean
  | VNumber _ => TNumber
  | VString _ => TString
  | VFunction => TFunction
  | VObject _ | VOtpAdapter => TObject
  end.

Definition type_tag_eqb (a b : type_tag) : bool :=
  match a, b with
  | TUndefined, TUndefined | TObject, TObject | TBoolean, TBoolean
  | TNumber, TNumber | TString, TString | TFunction, TFunction => true
  | _, _ => false
  end.

Fixpoint lookup (name : string) (fields : list (string * value)) : value :=
  match fields with
  | [] => VUndefined
  | (k, v) :: rest => if String.eqb k name then v else lookup name rest
  end.

(** The object literal [{ k1: v1, ... }]: a missing property reads as
    [undefined]. *)
Definition object (fields : list (string * value)) : value :=
  VObject (fun name => lookup name fields).

(** [v.name], for a [v] that is neither [undefined] nor [null]: none of
    the names read by the adapter is a property of a primitive, of a
    function or of the adapter class. *)
Definition get (v : value) (name : string) : value :=
  match v with
  | VObject props => props name
  | _ => VUndefined
  end.

(** [v instanceof OtpAdapter] *)
Definition instanceof_OtpAdapter (v : value) : bool :=
  match v with
  | VOtpAdapter => true
  | _ => false
  end.

(** [v <= 0], for a [v] whose [typeof] is ["number"]. *)
Definition le_zero (v : value) : bool :=
  match v with
  | VNumber n => le n (of_Z 0)
  | _ => false
  end.

(** A [Date]: its time value in milliseconds, or an invalid date. *)
Inductive Date : Type :=
| InvalidDate
| Time (ms : Z).

Definition trunc (q : Q) : Z :=
  if Qle_bool 0 q then Qfloor q else Qceiling q.

(** [new Date(n)]: the time value is clipped (ECMAScript TimeClip). *)
Definition Date_of_number (n : number) : Date :=
  match n with
  | Finite q =>
      if Qle_bool (Qabs q) (inject_Z 8640000000000000)
      then Time (trunc q) else InvalidDate
  | _ => InvalidDate
  end.

(** The number a [Date], or a missing one ([undefined]), compares as. *)
Definition Date_valueOf (d : option Date) : number :=
  match d with
  | Some (Time ms) => of_Z ms
  | Some InvalidDate | None => NaN
  end.

(** [n.toString()] for an integer [n]. *)
Definition toString (n : Z) : string :=
  NilZero.string_of_int (Z.to_int n).

(** What an [async] call settles to. *)
Inductive error : Type :=
| ParseError (code : Z) (message : string)
| Error (message : string)
| TypeError (message : string).

Inductive Outcome (A : Type) : Type :=
| Returned (a : A)
| Threw (e : error).
Arguments Returned {A} a.
Arguments Threw {A} e.

End JS.

Import JS.

(** ** The Parse store: the [OTP] class and local [Parse.Object]s *)

Module Parse.

(** [Parse.Error] codes. *)
Definition OBJECT_NOT_FOUND : Z := 101.
Definition INVALID_SESSION_TOKEN : Z := 209.

(** The columns of [OTP_TABLE_SCHEMA] the adapter reads and writes.  The
    schema declares no default value: a column that was never set is
    missing from the row and reads as [undefined].  [attempts] is a whole
    number: the adapter only ever stores [(attempts || 0) + 1]. *)
Record Attrs : Type := mkAttrs {
  email : option string;
  otp : option string;
  expiresAt : option Date;
  attempts : option Z
}.

Definition no_attrs : Attrs := mkAttrs None None None None.

(** A row of the class: the store assigns [objectId] and [createdAt].
    ([updatedAt] and [ACL], which the store keeps too, are never read by
    the adapter and are left out.) *)
Record Row : Type := mkRow {
  objectId : nat;
  createdAt : Z;
  attrs : Attrs
}.

(** [object.set(key, value)], one constructor per key. *)
Inductive FieldOp : Type :=
| SetEmail (v : string)
| SetOtp (v : string)
| SetExpiresAt (v : Date)
| SetAttempts (v : Z).

Definition apply_op (a : Attrs) (op : FieldOp) : Attrs :=
  match op with
  | SetEmail v => mkAttrs (Some v) (otp a) (expiresAt a) (attempts a)
  | SetOtp v => mkAttrs (email a) (Some v) (expiresAt a) (attempts a)
  | SetExpiresAt v => mkAttrs (email a) (otp a) (Some v) (attempts a)
  | SetAttempts v => mkAttrs (email a) (otp a) (expiresAt a) (Some v)
  end.

Definition apply_ops (ops : list FieldOp) (a : Attrs) : Attrs :=
  fold_left apply_op ops a.

(** A [Parse.Object] held by the running call: the identity of the row it
    was fetched from (none for [new Parse.Object]), its attributes as the
    call sees them, and the [set]s that [save] has still to send. *)
Record Object : Type := mkObject {
  id : option nat;
  data : Attrs;
  dirty : list FieldOp
}.

Definition new_Object : Object := mkObject None no_attrs [].

Definition of_row (r : Row) : Object :=
  mkObject (Some (objectId r)) (attrs r) [].

Definition set (o : Object) (op : FieldOp) : Object :=
  mkObject (id o) (apply_op (data o) op) (dirty o ++ [op]).

(** [new Parse.Query("OTP")], [query.equalTo("email", e)] and
    [query.descending("createdAt")]. *)
Record Query : Type := mkQuery {
  where_email : option string;
  order_descending_createdAt : bool
}.

Definition new_Query : Query := mkQuery None false.

Definition equalTo_email (q : Query) (e : string) : Query :=
  mkQuery (Some e) (order_descending_createdAt q).

Definition descending_createdAt (q : Query) : Query :=
  mkQuery (where_email q) true.

Definition has_email (e : string) (r : Row) : bool :=
  match email (attrs r) with
  | Some e' => String.eqb e' e
  | None => false
  end.

Definition matches (q : Query) (r : Row) : bool :=
  match where_email q with
  | Some e => has_email e r
  | None => true
  end.

(** The row created last; among rows created at the same instant, the
    one the store lists first. *)
Fixpoint newest (rows : list Row) : option Row :=
  match rows with
  | [] => None
  | r :: rest =>
      match newest rest with
      | Some r' => if createdAt r <? createdAt r' then Some r' else Some r
      | None => Some r
      end
  end.

(** [query.first()] on the rows of the class. *)
Definition first (q : Query) (rows : list Row) : option Row :=
  let found := filter (matches q) rows in
  if order_descending_createdAt q then newest found else hd_error found.

Definition has_id (i : nat) (r : Row) : bool := Nat.eqb (objectId r) i.

Definition delete_row (i : nat) (rows : list Row) : list Row :=
  filter (fun r => negb (has_id i r)) rows.

Definition update_row (i : nat) (ops : list FieldOp) (rows : list Row)
  : list Row :=
  map (fun r => if has_id i r
                then mkRow (objectId r) (createdAt r) (apply_ops ops (attrs r))
                else r) rows.

(** The rows of the class bound to one email. *)
Definition rows_for (e : string) (rows : list Row) : list Row :=
  filter (has_email e) rows.

End Parse.

(** ** The world of a call and the operations on it *)

(** What a call passes to [options.sendEmail] comes back settled: [None]
    when the promise resolves, the reason when it rejects. *)
Definition SendEmail : Type := string -> string -> option error.

(** The operations of the adapter on its collaborators, in the order they
    happen. *)
Inductive Event : Type :=
| EvFirst (q : Parse.Query)
| EvDestroy (o : Parse.Object)
| EvSave (o : Parse.Object)
| EvSendEmail (email otp : string).

(** The state a call runs in: the rows of the [OTP] class, the clock
    (milliseconds since the epoch), the next [objectId] of the store, the
    random source with the number of draws made, and the log of the
    operations performed. *)
Record World : Type := mkWorld {
  store : list Parse.Row;
  clock : Z;
  next_id : nat;
  entropy : nat -> Z;
  drawn : nat;
  trace : list Event
}.

Definition log (ev : Event) (w : World) : World :=
  mkWorld (store w) (clock w) (next_id w) (entropy w) (drawn w)
          (trace w ++ [ev]).

Definition with_store (rows : list Parse.Row) (w : World) : World :=
  mkWorld rows (clock w) (next_id w) (entropy w) (drawn w) (trace w).

(** The same world at another time. *)
Definition at_time (t : Z) (w : World) : World :=
  mkWorld (store w) t (next_id w) (entropy w) (drawn w) (trace w).

(** The operations, indexed by the type of their result.  [NewDate] and
    [RandomInt] are synchronous; the others are awaited. *)
Inductive op : Type -> Type :=
| NewDate : op Date
| RandomInt (min max : Z) : op Z
| First (q : Parse.Query) : op (option Parse.Object)
| Destroy (o : Parse.Object) : op unit
| Save (o : Parse.Object) : op unit
| CallSendEmail (send : SendEmail) (email otp : string) : op unit.

Definition is_await {X : Type} (e : op X) : bool :=
  match e with
  | NewDate | RandomInt _ _ => false
  | _ => true
  end.

(** [crypto.randomInt(min, max)] of Node.js returns an integer [n] with
    [min <= n < max]: the lower bound is inclusive, the upper bound
    exclusive.  [raw] is the draw of the random source. *)
Definition randomInt (min max raw : Z) : Z := min + raw mod (max - min).

Definition object_not_found : error :=
  ParseError Parse.OBJECT_NOT_FOUND "Object not found.".

(** What the collaborators do on one operation.  The store answers a
    [destroy] or an update of a row it no longer holds with
    [OBJECT_NOT_FOUND]; a [save] of a new object creates the row. *)
Definition handle {X : Type} (e : op X) (w : World) : Outcome X * World :=
  match e in op X return Outcome X * World with
  | NewDate => (Returned (Time (clock w)), w)
  | RandomInt min max =>
      (Returned (randomInt min max (entropy w (drawn w))),
       mkWorld (store w) (clock w) (next_id w) (entropy w) (S (drawn w))
               (trace w))
  | First q =>
      (Returned (option_map Parse.of_row (Parse.first q (store w))),
       log (EvFirst q) w)
  | Destroy o =>
      let w := log (EvDestroy o) w in
      match Parse.id o with
      | None => (Returned tt, w)
      | Some i =>
          if existsb (Parse.has_id i) (store w)
          then (Returned tt, with_store (Parse.delete_row i (store w)) w)
          else (Threw object_not_found, w)
      end
  | Save o =>
      let w := log (EvSave o) w in
      match Parse.id o with
      | None =>
          let row := Parse.mkRow (next_id w) (clock w)
                       (Parse.apply_ops (Parse.dirty o) Parse.no_attrs) in
          (Returned tt,
           mkWorld (store w ++ [row]) (clock w) (S (next_id w)) (entropy w)
                   (drawn w) (trace w))
      | Some i =>
          if existsb (Parse.has_id i) (store w)
          then (Returned tt,
                with_store (Parse.update_row i (Parse.dirty o) (store w)) w)
          else (Threw object_not_found, w)
      end
  | CallSendEmail send email otp =>
      let w := log (EvSendEmail email otp) w in
      match send email otp with
      | None => (Returned tt, w)
      | Some reason => (Threw reason, w)
      end
  end.

(** ** Programs *)

(** The body of an [async] method: it returns, throws, or performs an
    operation and goes on with its result. *)
Inductive prog (A : Type) : Type :=
| Ret (a : A)
| Throw (e : error)
| Vis {X : Type} (e : op X) (k : X -> prog A).
Arguments Ret {A} a.
Arguments Throw {A} e.
Arguments Vis {A X} e k.

Fixpoint bind {A B : Type} (p : prog A) (f : A -> prog B) : prog B :=
  match p with
  | Ret a => f a
  | Throw e => Throw e
  | Vis e k => Vis e (fun x => bind (k x) f)
  end.

Definition trigger {X : Type} (e : op X) : prog X := Vis e Ret.

Declare Scope prog_scope.
Delimit Scope prog_scope with prog.
Notation "x <- p ;; q" := (bind p (fun x => q))
  (at level 61, p at next level, right associativity) : prog_scope.
Notation "p ;; q" := (bind p (fun _ => q))
  (at level 61, right associativity) : prog_scope.
Local Open Scope prog_scope.

(** One call, run to completion with nothing else in between. *)
Fixpoint run {A : Type} (p : prog A) (w : World) : Outcome A * World :=
  match p with
  | Ret a => (Returned a, w)
  | Throw e => (Threw e, w)
  | Vis e k =>
      match handle e w with
      | (Returned x, w') => run (k x) w'
      | (Threw err, w') => (Threw err, w')
      end
  end.

(** One turn of a call: the synchronous code up to its next awaited
    operation, and that operation. *)
Fixpoint step {A : Type} (p : prog A) (w : World) : prog A * World :=
  match p with
  | Ret a => (Ret a, w)
  | Throw e => (Throw e, w)
  | Vis e k =>
      match handle e w with
      | (Returned x, w') => if is_await e then (k x, w') else step (k x) w'
      | (Threw err, w') => (Throw err, w')
      end
  end.



(** Calls made one after the other. *)
Fixpoint run_all {A : Type} (calls : list (prog A)) (w : World)
  : list (Outcome A) * World :=
  match calls with
  | [] => ([], w)
  | p :: later =>
      let (r, w') := run p w in
      let (rs, w'') := run_all later w' in
      (r :: rs, w'')
  end.

(** ** The adapter: [class OtpAdapter] *)

Record AuthData : Type := mkAuthData {
  authData_email : string;
  authData_otp : string
}.

Record ChallengeData : Type := mkChallengeData {
  challengeData_email : string
}.

Record OtpOptions : Type := mkOtpOptions {
  otpValidityInMs : number;
  maxAttempts : number;
  sendEmail : SendEmail
}.

Record OtpAdapterOptions : Type := mkOtpAdapterOptions {
  options : OtpOptions;
  module : value
}.

(** [Parse.Cloud.TriggerRequest], as far as the adapter reads it. *)
Record TriggerRequest : Type := mkTriggerRequest {
  master : value
}.

Record ChallengeResult : Type := mkChallengeResult {
  ok : bool
}.

(** The errors of [validateAuthData], under the names of the
    specification. *)
Definition NotFound : error :=
  ParseError Parse.OBJECT_NOT_FOUND "OTP not found".
Definition Expired : error :=
  ParseError Parse.INVALID_SESSION_TOKEN "OTP expired".
Definition AttemptsExhausted : error :=
  ParseError Parse.OBJECT_NOT_FOUND "Max attempts reached. OTP invalidated.".
Definition Invalid : error :=
  ParseError Parse.OBJECT_NOT_FOUND "Invalid OTP".

(** [otpObject.get("otp") !== otp] *)
Definition strict_neq (stored : option string) (submitted : string) : bool :=
  match stored with
  | Some s => negb (String.eqb s submitted)
  | None => true
  end.

(** [otpObject.get("attempts") || 0] *)
Definition or_zero (a : option Z) : Z :=
  match a with
  | Some n => if Z.eqb n 0 then 0 else n
  | None => 0
  end.

Definition getTime (d : Date) : number := Date_valueOf (Some d).

Definition validateAuthData (authData : AuthData)
  (adapterOptions : OtpAdapterOptions) (request : TriggerRequest)
  : prog bool :=
  let options := options adapterOptions in
  let email := authData_email authData in
  let otp := authData_otp authData in
  let isMaster := truthy (master request) in
  (if negb isMaster then
     let query := Parse.new_Query in
     let query := Parse.equalTo_email query email in
     let query := Parse.descending_createdAt query in
     found <- trigger (First query) ;;
     match found with
     | None => Throw NotFound
     | Some otpObject =>
         now <- trigger NewDate ;;
         (if JS.gt (getTime now)
                   (Date_valueOf (Parse.expiresAt (Parse.data otpObject)))
          then trigger (Destroy otpObject) ;; Throw Expired
          else Ret tt) ;;
         (if strict_neq (Parse.otp (Parse.data otpObject)) otp
          then
            let attempts :=
              or_zero (Parse.attempts (Parse.data otpObject)) + 1 in
            let otpObject := Parse.set otpObject (Parse.SetAttempts attempts) in
            if JS.ge (of_Z attempts) (maxAttempts options)
            then trigger (Destroy otpObject) ;; Throw AttemptsExhausted
            else trigger (Save otpObject) ;; Throw Invalid
          else Ret tt) ;;
         trigger (Destroy otpObject)
     end
   else Ret tt) ;;
  Ret true.

Definition getExpirationTime (otpValidityInMs : number) : prog Date :=
  currentTime <- trigger NewDate ;;
  let expirationTime :=
    Date_of_number (JS.add (getTime currentTime) otpValidityInMs) in
  Ret expirationTime.

Definition challenge (challengeData : ChallengeData) (authData : value)
  (adapterOptions : OtpAdapterOptions) : prog ChallengeResult :=
  let options := options adapterOptions in
  let email := challengeData_email challengeData in
  n <- trigger (RandomInt 100000 999999) ;;
  let otp := toString n in
  expiresAt <- getExpirationTime (otpValidityInMs options) ;;
  let query := Parse.new_Query in
  let query := Parse.equalTo_email query email in
  found <- trigger (First query) ;;
  let otpObject :=
    match found with
    | Some otpObject =>
        let otpObject := Parse.set otpObject (Parse.SetOtp otp) in
        Parse.set otpObject (Parse.SetExpiresAt expiresAt)
    | None =>
        let otpObject := Parse.new_Object in
        let otpObject := Parse.set otpObject (Parse.SetEmail email) in
        let otpObject := Parse.set otpObject (Parse.SetOtp otp) in
        Parse.set otpObject (Parse.SetExpiresAt expiresAt)
    end in
  trigger (Save otpObject) ;;
  trigger (CallSendEmail (sendEmail options) email otp) ;;
  Ret (mkChallengeResult true).

(** [validateOptions] is synchronous and touches no collaborator.  Its
    argument is the value the host passes, whatever its shape. *)
Definition validateOptions (options : value) : Outcome unit :=
  match options with
  | VUndefined | VNull =>
      Threw (TypeError "Cannot destructure property 'options'")
  | _ =>
      let otpOptions := get options "options" in
      if negb (truthy otpOptions)
      then Threw (Error "Options object is required")
      else if negb (type_tag_eqb (typeof (get otpOptions "otpValidityInMs"))
                                 TNumber)
              || le_zero (get otpOptions "otpValidityInMs")
      then Threw (Error "Invalid or missing otpValidityInMs")
      else if negb (type_tag_eqb (typeof (get otpOptions "maxAttempts"))
                                 TNumber)
              || le_zero (get otpOptions "maxAttempts")
      then Threw (Error "Invalid or missing maxAttempts")
      else if negb (type_tag_eqb (typeof (get otpOptions "sendEmail"))
                                 TFunction)
      then Threw (Error "Invalid or missing sendEmail function")
      else if negb (instanceof_OtpAdapter (get options "module"))
      then Threw (Error "Module must be an instance of OtpAdapter")
      else Returned tt
  end.

(** ** Scenarios *)

Module Scenario.

Definition delivered : SendEmail := fun _ _ => None.
Definition smtp_down : SendEmail :=
  fun _ _ => Some (Error "SMTP connection refused").

(** [otpValidityInMs = 300000], [maxAttempts = 3] (the README's
    configuration). *)
Definition opts (send : SendEmail) : OtpAdapterOptions :=
  mkOtpAdapterOptions (mkOtpOptions (of_Z 300000) (of_Z 3) send) VOtpAdapter.

Definition opts_max (m : number) : OtpAdapterOptions :=
  mkOtpAdapterOptions (mkOtpOptions (of_Z 300000) m delivered) VOtpAdapter.

Definition client : TriggerRequest := mkTriggerRequest VUndefined.
Definition cloud_code : TriggerRequest := mkTriggerRequest (VBool true).

Definition alice : string := "a@b.com".

(** The record of the specification's example: code 482913, issued at
    time 1000 for five minutes, [attempts] never written. *)
Definition fresh : Parse.Row :=
  Parse.mkRow 0 1000
    (Parse.mkAttrs (Some alice) (Some "482913") (Some (Time 301000)) None).

Definition world (rows : list Parse.Row) (now : Z) : World :=
  mkWorld rows now (List.length rows) (fun _ => 382913) 0 [].

Definition verify (code : string) (o : OtpAdapterOptions) : prog bool :=
  validateAuthData (mkAuthData alice code) o client.

Definition readme : OtpAdapterOptions := opts delivered.

(** The record is live at time 2000 and expired at time 301001. *)
Definition live : World := world [fresh] 2000.
Definition late : World := world [fresh] 301001.
Definition empty : World := world [] 1000.

Definition right_code : AuthData := mkAuthData alice "482913".
Definition wrong_code : AuthData := mkAuthData alice "000000".

Definition counters (w : World) : list (option Z) :=
  map (fun r => Parse.attempts (Parse.attrs r)) (store w).

(** A configuration object as the host hands it to [validateOptions]. *)
Definition config (validity attempts send adapter : value) : value :=
  object [("options", object [("otpValidityInMs", validity);
                              ("maxAttempts", attempts);
                              ("sendEmail", send)]);
          ("module", adapter)].

Definition config_fields (validity attempts send adapter : value)
  : string -> value :=
  fun name =>
    lookup name
      [("options", object [("otpValidityInMs", validity);
                           ("maxAttempts", attempts);
                           ("sendEmail", send)]);
       ("module", adapter)].

End Scenario.

(** The query of [validateAuthData] and the query of [challenge]. *)
Definition verify_query (e : string) : Parse.Query :=
  Parse.descending_createdAt (Parse.equalTo_email Parse.new_Query e).

Definition challenge_query (e : string) : Parse.Query :=
  Parse.equalTo_email Parse.new_Query e.

(** [r] with its counter set to [a]. *)
Definition with_attempts (a : Z) (r : Parse.Row) : Parse.Row :=
  Parse.mkRow (Parse.objectId r) (Parse.createdAt r)
    (Parse.apply_op (Parse.attrs r) (Parse.SetAttempts a)).

(** [r] with a new code and a new expiry. *)
Definition reissued (code : string) (expiry : Date) (r : Parse.Row)
  : Parse.Row :=
  Parse.mkRow (Parse.objectId r) (Parse.createdAt r)
    (Parse.mkAttrs (Parse.email (Parse.attrs r)) (Some code) (Some expiry)
                   (Parse.attempts (Parse.attrs r))).

(** A [set] that leaves the email of a row alone. *)
Definition keeps_email (op : Parse.FieldOp) : bool :=
  match op with
  | Parse.SetEmail _ => false
  | _ => true
  end.

(** A [set] of the counter. *)
Definition sets_attempts (op : Parse.FieldOp) : bool :=
  match op with
  | Parse.SetAttempts _ => true
  | _ => false
  end.

(** A number greater than 0 and a value the two numeric checks of
    [validateOptions] let through or stop. *)
Definition positive (v : value) : Prop :=
  exists n : number, v = VNumber n /\ JS.gt n (of_Z 0) = true.

Definition refused (v : value) : Prop :=
  typeof v <> TNumber \/ le_zero v = true.

(** ** The other exports of the module *)

(** [initializeOtpAdapter(options)]: the bundle the host registers. *)
Definition initializeOtpAdapter (options : value) : value :=
  object [("module", VOtpAdapter); ("options", options)].

(** *** [updateAuthDataAfterSave] *)

Module Hook.

(** What [user.toJSON()] is made of: data, no function and no class
    instance.  [JUndefined] is what a missing property reads as. *)
Inductive json : Type :=
| JUndefined
| JNull
| JBool (b : bool)
| JNumber (n : number)
| JString (s : string)
| JObject (props : string -> json).

(** [v.name]: reading a property of [undefined] or [null] throws. *)
Definition get (v : json) (name : string) : Outcome json :=
  match v with
  | JUndefined | JNull =>
      Threw (TypeError "Cannot read properties of undefined")
  | JObject props => Returned (props name)
  | _ => Returned JUndefined
  end.

(** [v.name = x], in the strict mode of a module: it throws on
    [undefined], on [null] and on a primitive. *)
Definition set (v : json) (name : string) (x : json) : Outcome json :=
  match v with
  | JObject props =>
      Returned (JObject (fun n => if String.eqb n name then x else props n))
  | JUndefined | JNull => Threw (TypeError "Cannot set properties of undefined")
  | _ => Threw (TypeError "Cannot create property")
  end.

(** [v !== s] for a string [s]. *)
Definition strict_neq (v : json) (s : string) : bool :=
  match v with
  | JString s' => negb (String.eqb s' s)
  | _ => true
  end.

(** The saved user of the [afterSave] request: [user.getEmail()] and
    [user.toJSON().authData]. *)
Record User : Type := mkUser {
  getEmail : option string;
  authData : json
}.

Definition then_ {A B : Type} (r : Outcome A) (k : A -> Outcome B)
  : Outcome B :=
  match r with
  | Returned a => k a
  | Threw e => Threw e
  end.

(** The hook returns nothing.  Its result here is what it hands to
    [user.save({ authData }, { useMasterKey: true })], if it calls it;
    the save itself is not awaited. *)
Definition updateAuthDataAfterSave (user : User) : Outcome (option json) :=
  let authData := authData user in
  match getEmail user with
  | Some email =>
      if negb (String.eqb email "")
      then
        then_ (get authData "otp") (fun otp =>
        then_ (get otp "id") (fun id =>
        if strict_neq id email
        then
          then_ (set otp "id" (JString email)) (fun otp =>
          then_ (set otp "email" (JString email)) (fun otp =>
          then_ (set authData "otp" otp) (fun authData =>
          Returned (Some authData))))
        else Returned None))
      else Returned None
  | None => Returned None
  end.

(** The user once the save of the hook is done. *)
Definition saved (user : User) (authData : json) : User :=
  mkUser (getEmail user) authData.

End Hook.

(** *** [setupOtpTable] *)

Module Schema.

Definition OTP_TABLE_NAME : string := "OTP".

Definition INVALID_CLASS_NAME : Z := 103.

Inductive FieldType : Type := FString | FDate | FNumber | FACL.

(** A class of the store, as [Parse.Schema] sends it and as
    [OTP_TABLE_SCHEMA] writes it: every permission of
    [classLevelPermissions] is the empty object, and an index lists its
    keys with their direction. *)
Record Class : Type := mkClass {
  className : string;
  fields : list (string * FieldType);
  classLevelPermissions : list string;
  indexes : list (string * list (string * Z))
}.

Definition OTP_TABLE_SCHEMA : Class :=
  mkClass OTP_TABLE_NAME
    [("objectId", FString); ("createdAt", FDate); ("updatedAt", FDate);
     ("ACL", FACL); ("email", FString); ("otp", FString);
     ("expiresAt", FDate); ("attempts", FNumber)]
    ["find"; "count"; "get"; "create"; "update"; "delete"; "addField";
     "protectedFields"]
    [("_id_", [("_id", 1)]); ("email_idx", [("email", 1)])].

(** The columns and the index every class of the store has. *)
Definition default_fields : list string :=
  ["objectId"; "createdAt"; "updatedAt"; "ACL"].

Definition is_default_field (f : string * FieldType) : bool :=
  existsb (String.eqb (fst f)) default_fields.

(** [new Parse.Schema(name)] and its builders: a key set twice keeps its
    place and takes the last value. *)
Definition new_Schema (name : string) : Class := mkClass name [] [] [].

Fixpoint put {V : Type} (k : string) (v : V) (l : list (string * V))
  : list (string * V) :=
  match l with
  | [] => [(k, v)]
  | (k', v') :: rest =>
      if String.eqb k' k then (k, v) :: rest else (k', v') :: put k v rest
  end.

Definition addField (s : Class) (name : string) (t : FieldType) : Class :=
  mkClass (className s) (put name t (fields s)) (classLevelPermissions s)
          (indexes s).

Definition addString (s : Class) (name : string) : Class :=
  addField s name FString.
Definition addDate (s : Class) (name : string) : Class :=
  addField s name FDate.
Definition addNumber (s : Class) (name : string) : Class :=
  addField s name FNumber.

Definition addIndex (s : Class) (name : string) (index : list (string * Z))
  : Class :=
  mkClass (className s) (fields s) (classLevelPermissions s)
          (put name index (indexes s)).

Definition setCLP (s : Class) (clp : list string) : Class :=
  mkClass (className s) (fields s) clp (indexes s).

(** One line of the console. *)
Inductive Line : Type :=
| Log (message : string)
| ErrorLine (message : string) (name : string) (colon : string)
            (detail : string + error).

(** The schema side of the store: its classes, what goes wrong with the
    next [schema.get()] or [schema.save()] besides the class being
    missing or present (no connection, no permission), and the console. *)
Record Server : Type := mkServer {
  classes : list Class;
  get_fault : option error;
  save_fault : option error;
  console : list Line
}.

Definition find_class (name : string) (l : list Class) : option Class :=
  find (fun c => String.eqb (className c) name) l.

Definition M (A : Type) : Type := Server -> Outcome A * Server.

Definition ret {A : Type} (a : A) : M A := fun w => (Returned a, w).

Definition bind {A B : Type} (m : M A) (k : A -> M B) : M B :=
  fun w =>
    match m w with
    | (Returned a, w') => k a w'
    | (Threw e, w') => (Threw e, w')
    end.

(** [try { body } catch (e) { handler }] *)
Definition try_catch {A : Type} (body : M A) (handler : error -> M A) : M A :=
  fun w =>
    match body w with
    | (Threw e, w') => handler e w'
    | done => done
    end.

Definition print (l : Line) : M unit :=
  fun w =>
    (Returned tt,
     mkServer (classes w) (get_fault w) (save_fault w) (console w ++ [l])).

(** [await schema.get()] rejects when the class does not exist. *)
Definition schema_get (s : Class) : M unit :=
  fun w =>
    match get_fault w with
    | Some e => (Threw e, w)
    | None =>
        match find_class (className s) (classes w) with
        | Some _ => (Returned tt, w)
        | None =>
            (Threw (ParseError INVALID_CLASS_NAME
                      ("Class " ++ className s ++ " does not exist.")), w)
        end
    end.

(** [await schema.save()] creates the class and rejects when it
    exists. *)
Definition schema_save (s : Class) : M unit :=
  fun w =>
    match save_fault w with
    | Some e => (Threw e, w)
    | None =>
        match find_class (className s) (classes w) with
        | Some _ =>
            (Threw (ParseError INVALID_CLASS_NAME
                      ("Class " ++ className s ++ " already exists.")), w)
        | None =>
            (Returned tt,
             mkServer (classes w ++ [s]) (get_fault w) (save_fault w)
                      (console w))
        end
    end.

Definition message (e : error) : string :=
  match e with
  | ParseError _ m | Error m | TypeError m => m
  end.

(** [err.message || err] *)
Definition message_or_error (e : error) : string + error :=
  if String.eqb (message e) "" then inr e else inl (message e).

Definition setupOtpTable : M unit :=
  try_catch
    (let schema := new_Schema OTP_TABLE_NAME in
     try_catch
       (bind (schema_get schema) (fun _ =>
        print (Log ("OTP-AUTH-ADAPTER: Schema for class " ++ OTP_TABLE_NAME
                    ++ " already exists."))))
       (fun getSchemaError =>
          bind (print (Log ("OTP-AUTH-ADAPTER: Schema for class "
                            ++ OTP_TABLE_NAME ++ " not found. Creating...")))
            (fun _ =>
          let schema := addString schema "email" in
          let schema := addString schema "otp" in
          let schema := addDate schema "expiresAt" in
          let schema := addNumber schema "attempts" in
          let schema := addIndex schema "email_idx" [("email", 1)] in
          let schema := setCLP schema [] in
          bind (schema_save schema) (fun _ =>
          print (Log ("OTP-AUTH-ADAPTER: Schema for class " ++ OTP_TABLE_NAME
                      ++ " created successfully."))))))
    (fun err =>
       print (ErrorLine "OTP-AUTH-ADAPTER: Error during schema setup for"
                OTP_TABLE_NAME ":" (message_or_error err))).

End Schema.

(** *** The earlier release of the adapter *)

Module V1.

Local Open Scope prog_scope.

(** [validateAuthData] before the master-key path was added. *)
Definition validateAuthData (authData : AuthData)
  (adapterOptions : OtpAdapterOptions) : prog bool :=
  let options := options adapterOptions in
  let email := authData_email authData in
  let otp := authData_otp authData in
  let query := Parse.new_Query in
  let query := Parse.equalTo_email query email in
  let query := Parse.descending_createdAt query in
  found <- trigger (First query) ;;
  match found with
  | None => Throw NotFound
  | Some otpObject =>
      now <- trigger NewDate ;;
      (if JS.gt (getTime now)
                (Date_valueOf (Parse.expiresAt (Parse.data otpObject)))
       then trigger (Destroy otpObject) ;; Throw Expired
       else Ret tt) ;;
      (if strict_neq (Parse.otp (Parse.data otpObject)) otp
       then
         let attempts :=
           or_zero (Parse.attempts (Parse.data otpObject)) + 1 in
         let otpObject := Parse.set otpObject (Parse.SetAttempts attempts) in
         if JS.ge (of_Z attempts) (maxAttempts options)
         then trigger (Destroy otpObject) ;; Throw AttemptsExhausted
         else trigger (Save otpObject) ;; Throw Invalid
       else Ret tt) ;;
      trigger (Destroy otpObject) ;;
      Ret true
  end.

(** [validateOptions] when [applicationId] and [mountPath] were part of
    the options. *)
Definition validateOptions (options : value) : Outcome unit :=
  match options with
  | VUndefined | VNull =>
      Threw (TypeError "Cannot destructure property 'options'")
  | _ =>
      let otpOptions := JS.get options "options" in
      if negb (truthy otpOptions)
      then Threw (Error "Options object is required")
      else if negb (type_tag_eqb
                      (typeof (JS.get otpOptions "otpValidityInMs")) TNumber)
              || le_zero (JS.get otpOptions "otpValidityInMs")
      then Threw (Error "Invalid or missing otpValidityInMs")
      else if negb (truthy (JS.get otpOptions "applicationId"))
              || negb (type_tag_eqb
                         (typeof (JS.get otpOptions "applicationId")) TString)
      then Threw (Error "Invalid or missing applicationId")
      else if negb (truthy (JS.get otpOptions "mountPath"))
              || negb (type_tag_eqb
                         (typeof (JS.get otpOptions "mountPath")) TString)
      then Threw (Error "Invalid or missing mountPath")
      else if negb (type_tag_eqb (typeof (JS.get otpOptions "maxAttempts"))
                                 TNumber)
              || le_zero (JS.get otpOptions "maxAttempts")
      then Threw (Error "Invalid or missing maxAttempts")
      else if negb (type_tag_eqb (typeof (JS.get otpOptions "sendEmail"))
                                 TFunction)
      then Threw (Error "Invalid or missing sendEmail function")
      else if negb (instanceof_OtpAdapter (JS.get options "module"))
      then Threw (Error "Module must be an instance of OtpAdapter")
      else Returned tt
  end.

End V1.

(** ** Sequences of calls *)

(** What the host does to the adapter, one thing after the other: a
    challenge, a verification, or nothing until a later time. *)
Inductive Call : Type :=
| DoChallenge (challengeData : ChallengeData) (authData : value)
              (adapterOptions : OtpAdapterOptions)
| DoVerify (authData : AuthData) (adapterOptions : OtpAdapterOptions)
           (request : TriggerRequest)
| Wait (until : Z).

Definition run_call (c : Call) (w : World) : World :=
  match c with
  | DoChallenge cd a o => snd (run (challenge cd a o) w)
  | DoVerify a o r => snd (run (validateAuthData a o r) w)
  | Wait t => at_time t w
  end.

Definition run_calls (cs : list Call) (w : World) : World :=
  fold_left (fun w c => run_call c w) cs w.

(** The store as the adapter keeps it: one record per email at most,
    and rows told apart by their [objectId], all below the next one. *)
Definition one_per_email (rows : list Parse.Row) : Prop :=
  forall e : string, (List.length (Parse.rows_for e rows) <= 1)%nat.

Definition unique_ids (rows : list Parse.Row) : Prop :=
  NoDup (map Parse.objectId rows).

Definition well_formed (w : World) : Prop :=
  one_per_email (store w)
  /\ unique_ids (store w)
  /\ Forall (fun r => (Parse.objectId r < next_id w)%nat) (store w).

(** A valid number for [validateOptions]: a number that is not [<= 0]. *)
Definition passes_number_check (v : value) : Prop :=
  exists n : number,
    v = VNumber n
    /\ (n = NaN \/ n = PosInf \/ exists q : Q, n = Finite q /\ (0 < q)%Q).

(** ** More scenarios *)

Module Cases.

Definition bob : string := "bob@b.com".

(** A second user's record, which has counted one attempt. *)
Definition bobs : Parse.Row :=
  Parse.mkRow 1 1500
    (Parse.mkAttrs (Some bob) (Some "135790") (Some (Time 301500)) (Some 1)).

(** A record that was written without [expiresAt]. *)
Definition undated : Parse.Row :=
  Parse.mkRow 0 1000
    (Parse.mkAttrs (Some Scenario.alice) (Some "482913") None None).

Definition two_users : World := Scenario.world [Scenario.fresh; bobs] 2000.

Definition no_limit : OtpAdapterOptions := Scenario.opts_max NaN.

Definition session : list Call :=
  [DoChallenge (mkChallengeData Scenario.alice) VUndefined Scenario.readme;
   DoVerify Scenario.wrong_code Scenario.readme Scenario.client;
   Wait 5000;
   DoChallenge (mkChallengeData bob) VUndefined Scenario.readme;
   DoVerify Scenario.right_code Scenario.readme Scenario.client].

(** [authData] with an [otp] entry whose [id] is given. *)
Definition linked (id : Hook.json) : Hook.json :=
  Hook.JObject (fun k =>
    if String.eqb k "otp"
    then Hook.JObject (fun k' =>
           if String.eqb k' "id" then id else Hook.JUndefined)
    else Hook.JUndefined).

(** A user who changed email after linking, a user of another provider,
    and a user without email. *)
Definition renamed : Hook.User :=
  Hook.mkUser (Some "new@b.com") (linked (Hook.JString "old@b.com")).

Definition other_provider : Hook.User :=
  Hook.mkUser (Some "a@b.com") (Hook.JObject (fun _ => Hook.JUndefined)).

Definition anonymous : Hook.User := Hook.mkUser None Hook.JUndefined.

Definition renamed_saved : Hook.json :=
  match Hook.updateAuthDataAfterSave renamed with
  | Returned (Some a) => a
  | _ => Hook.JNull
  end.

Definition new_store : Schema.Server := Schema.mkServer [] None None [].

Definition offline_store : Schema.Server :=
  Schema.mkServer [] (Some (Error "connection refused"))
                  (Some (Error "connection refused")) [].

End Cases.

(** * Properties *)

(** ** Numbers and dates *)

Section Numbers.

Lemma Qle_bool_inject_Z (a b : Z) :
  Qle_bool (inject_Z a) (inject_Z b) = (a <=? b).
Proof.
  unfold Qle_bool, inject_Z; simpl. now rewrite !Z.mul_1_r.
Qed.

Lemma ge_of_Z (a b : Z) : JS.ge (of_Z a) (of_Z b) = (b <=? a).
Proof. unfold JS.ge, JS.le, of_Z. apply Qle_bool_inject_Z. Qed.

Lemma gt_of_Z (a b : Z) : JS.gt (of_Z a) (of_Z b) = (b <? a).
Proof.
  unfold JS.gt, JS.lt, of_Z. rewrite Qle_bool_inject_Z.
  rewrite Z.leb_antisym. now rewrite negb_involutive.
Qed.

Lemma lt_not_ge (a b : number) : JS.lt a b = true -> JS.ge a b = false.
Proof.
  unfold JS.ge. destruct a, b; simpl; try discriminate; try reflexivity.
  intros H. now apply negb_true_iff in H.
Qed.

Lemma gt_zero_not_le (n : number) :
  JS.gt n (of_Z 0) = true -> JS.le n (of_Z 0) = false.
Proof. intros H. apply lt_not_ge in H. exact H. Qed.

Lemma trunc_inject_Z (z : Z) : trunc (inject_Z z) = z.
Proof.
  unfold trunc. destruct (Qle_bool 0 (inject_Z z)).
  - apply Qfloor_Z.
  - apply Qceiling_Z.
Qed.

(** On whole milliseconds inside the range of [Date], the expiry is the
    exact sum. *)
Lemma Date_of_number_sum (t v : Z) :
  Z.abs (t + v) <= 8640000000000000 ->
  Date_of_number (JS.add (of_Z t) (of_Z v)) = Time (t + v).
Proof.
  intros H. unfold of_Z, JS.add, Date_of_number.
  assert (E : Qle_bool (Qabs (inject_Z t + inject_Z v))
                       (inject_Z 8640000000000000) = true).
  { apply Qle_bool_iff. rewrite <- inject_Z_plus.
    change (Qabs (inject_Z (t + v))) with (inject_Z (Z.abs (t + v))).
    rewrite <- Zle_Qle. exact H. }
  rewrite E. f_equal.
  unfold trunc.
  destruct (Qle_bool 0 (inject_Z t + inject_Z v)).
  - rewrite <- inject_Z_plus. apply Qfloor_Z.
  - rewrite <- inject_Z_plus. apply Qceiling_Z.
Qed.

Lemma toString_inj (a b : Z) : toString a = toString b -> a = b.
Proof.
  unfold toString. intros H.
  assert (P : forall z, Z.to_int z <> Decimal.Pos Decimal.Nil
                        /\ Z.to_int z <> Decimal.Neg Decimal.Nil).
  { intros z. destruct z as [|p|p]; simpl; split; try discriminate;
      intros E; injection E as E;
      exact (DecimalPos.Unsigned.to_uint_nonnil p E). }
  apply DecimalZ.to_int_inj.
  assert (S1 := NilZero.isi (Z.to_int a) (proj1 (P a)) (proj2 (P a))).
  assert (S2 := NilZero.isi (Z.to_int b) (proj1 (P b)) (proj2 (P b))).
  rewrite H in S1. rewrite S1 in S2. now injection S2.
Qed.

Lemma randomInt_range (min max raw : Z) :
  min < max -> min <= randomInt min max raw < max.
Proof.
  intros H. unfold randomInt.
  pose proof (Z.mod_pos_bound raw (max - min)). lia.
Qed.

End Numbers.

(** ** The store *)

Section StoreFacts.

Lemma newest_In (rows : list Parse.Row) (r : Parse.Row) :
  Parse.newest rows = Some r -> In r rows.
Proof.
  revert r. induction rows as [|x rows IH]; simpl; intros r H.
  - discriminate.
  - destruct (Parse.newest rows) as [r'|].
    + destruct (Parse.createdAt x <? Parse.createdAt r');
        injection H as <-; auto.
    + injection H as <-. now left.
Qed.

Lemma first_In (q : Parse.Query) (rows : list Parse.Row) (r : Parse.Row) :
  Parse.first q rows = Some r -> In r rows /\ Parse.matches q r = true.
Proof.
  unfold Parse.first. intros H. apply filter_In.
  destruct (Parse.order_descending_createdAt q).
  - now apply newest_In.
  - destruct (filter (Parse.matches q) rows) eqn:E; simpl in H.
    + discriminate.
    + injection H as ->. now left.
Qed.

Lemma In_has_id (rows : list Parse.Row) (r : Parse.Row) :
  In r rows -> existsb (Parse.has_id (Parse.objectId r)) rows = true.
Proof.
  intros H. apply existsb_exists. exists r. split; [exact H|].
  unfold Parse.has_id. apply Nat.eqb_refl.
Qed.

Lemma delete_row_not_In (rows : list Parse.Row) (r : Parse.Row) :
  ~ In r (Parse.delete_row (Parse.objectId r) rows).
Proof.
  unfold Parse.delete_row. intros H. apply filter_In in H.
  destruct H as [_ H]. unfold Parse.has_id in H.
  now rewrite Nat.eqb_refl in H.
Qed.

Lemma filter_swap {A : Type} (p q : A -> bool) (l : list A) :
  filter p (filter q l) = filter q (filter p l).
Proof.
  induction l as [|x l IH]; simpl; [reflexivity|].
  destruct (p x) eqn:P, (q x) eqn:Q; simpl; rewrite ?P, ?Q, IH; reflexivity.
Qed.

Lemma rows_for_delete (e : string) (i : nat) (rows : list Parse.Row) :
  Parse.rows_for e (Parse.delete_row i rows)
  = Parse.delete_row i (Parse.rows_for e rows).
Proof. unfold Parse.rows_for, Parse.delete_row. apply filter_swap. Qed.

Lemma rows_for_delete_single (e : string) (rows : list Parse.Row)
  (r : Parse.Row) :
  Parse.rows_for e rows = [r] ->
  Parse.rows_for e (Parse.delete_row (Parse.objectId r) rows) = [].
Proof.
  intros H. rewrite rows_for_delete, H. simpl.
  unfold Parse.has_id. now rewrite Nat.eqb_refl.
Qed.

Lemma first_verify_query (e : string) (rows : list Parse.Row) :
  Parse.first (verify_query e) rows = Parse.newest (Parse.rows_for e rows).
Proof. reflexivity. Qed.

Lemma first_challenge_query (e : string) (rows : list Parse.Row) :
  Parse.first (challenge_query e) rows = hd_error (Parse.rows_for e rows).
Proof. reflexivity. Qed.

Lemma apply_ops_email (ops : list Parse.FieldOp) (a : Parse.Attrs) :
  forallb keeps_email ops = true ->
  Parse.email (Parse.apply_ops ops a) = Parse.email a.
Proof.
  unfold Parse.apply_ops. revert a.
  induction ops as [|op ops IH]; simpl; intros a H; [reflexivity|].
  apply andb_true_iff in H. destruct H as [H1 H2].
  rewrite (IH _ H2). destruct op; simpl in *; congruence.
Qed.

(** An update that sets no email moves no row from one email to another. *)
Lemma rows_for_update (e : string) (i : nat) (ops : list Parse.FieldOp)
  (rows : list Parse.Row) :
  forallb keeps_email ops = true ->
  Parse.rows_for e (Parse.update_row i ops rows)
  = Parse.update_row i ops (Parse.rows_for e rows).
Proof.
  intros K. unfold Parse.rows_for, Parse.update_row.
  induction rows as [|x rows IH]; simpl; [reflexivity|].
  assert (E : Parse.has_email e
                (if Parse.has_id i x
                 then Parse.mkRow (Parse.objectId x) (Parse.createdAt x)
                        (Parse.apply_ops ops (Parse.attrs x))
                 else x) = Parse.has_email e x).
  { destruct (Parse.has_id i x); [|reflexivity].
    unfold Parse.has_email; simpl. now rewrite apply_ops_email. }
  rewrite E. destruct (Parse.has_email e x); simpl; now rewrite IH.
Qed.

Lemma update_row_length (i : nat) (ops : list Parse.FieldOp)
  (rows : list Parse.Row) :
  List.length (Parse.update_row i ops rows) = List.length rows.
Proof. unfold Parse.update_row. apply length_map. Qed.

Lemma update_row_single (ops : list Parse.FieldOp) (r : Parse.Row) :
  Parse.update_row (Parse.objectId r) ops [r]
  = [Parse.mkRow (Parse.objectId r) (Parse.createdAt r)
       (Parse.apply_ops ops (Parse.attrs r))].
Proof.
  unfold Parse.update_row, Parse.has_id; simpl. now rewrite Nat.eqb_refl.
Qed.

Lemma rows_for_app (e : string) (rows more : list Parse.Row) :
  Parse.rows_for e (rows ++ more)
  = (Parse.rows_for e rows ++ Parse.rows_for e more)%list.
Proof. unfold Parse.rows_for. apply filter_app. Qed.

Lemma delete_row_length (i : nat) (rows : list Parse.Row) :
  (List.length (Parse.delete_row i rows) <= List.length rows)%nat.
Proof. unfold Parse.delete_row. apply filter_length_le. Qed.

End StoreFacts.

(** ** What one call does *)

(** The comparisons and the store functions stay folded while a call is
    run symbolically. *)
Arguments JS.gt : simpl never.
Arguments JS.ge : simpl never.
Arguments strict_neq : simpl never.
Arguments or_zero : simpl never.
Arguments Parse.first : simpl never.
Arguments Parse.delete_row : simpl never.
Arguments Parse.update_row : simpl never.
Arguments existsb : simpl never.
Arguments of_Z : simpl never.
Arguments Date_valueOf : simpl never.
Arguments Date_of_number : simpl never.
Arguments JS.add : simpl never.
Arguments toString : simpl never.
Arguments randomInt : simpl never.

Section Calls.

Lemma run_bind {A B : Type} (p : prog A) (f : A -> prog B) (w : World) :
  run (bind p f) w =
  match run p w with
  | (Returned a, w') => run (f a) w'
  | (Threw e, w') => (Threw e, w')
  end.
Proof.
  revert w. induction p as [a|e|X e k IH]; intros w; simpl.
  - reflexivity.
  - reflexivity.
  - destruct (handle e w) as [[x|err] w']; [apply IH|reflexivity].
Qed.


(** Turn by turn or in one go, a call that nothing interrupts ends the
    same way. *)
Lemma run_step {A : Type} (p : prog A) (w : World) :
  run (fst (step p w)) (snd (step p w)) = run p w.
Proof.
  revert w. induction p as [a|e|X e k IH]; intros w; simpl.
  - reflexivity.
  - reflexivity.
  - destruct (handle e w) as [[x|err] w']; [|reflexivity].
    destruct (is_await e); [reflexivity|apply IH].
Qed.

(** The whole of an unprivileged [validateAuthData], branch by branch. *)
Lemma verify_run (authData : AuthData) (o : OtpAdapterOptions)
  (request : TriggerRequest) (w : World) :
  truthy (master request) = false ->
  let q := verify_query (authData_email authData) in
  let w1 := log (EvFirst q) w in
  run (validateAuthData authData o request) w =
  match Parse.first q (store w) with
  | None => (Threw NotFound, w1)
  | Some r =>
      let obj := Parse.of_row r in
      let gone := Parse.delete_row (Parse.objectId r) (store w) in
      if JS.gt (of_Z (clock w)) (Date_valueOf (Parse.expiresAt (Parse.attrs r)))
      then (Threw Expired, with_store gone (log (EvDestroy obj) w1))
      else if strict_neq (Parse.otp (Parse.attrs r)) (authData_otp authData)
      then
        let a := or_zero (Parse.attempts (Parse.attrs r)) + 1 in
        let obj' := Parse.set obj (Parse.SetAttempts a) in
        if JS.ge (of_Z a) (maxAttempts (options o))
        then (Threw AttemptsExhausted,
              with_store gone (log (EvDestroy obj') w1))
        else (Threw Invalid,
              with_store (Parse.update_row (Parse.objectId r)
                            [Parse.SetAttempts a] (store w))
                         (log (EvSave obj') w1))
      else (Returned true, with_store gone (log (EvDestroy obj) w1))
  end.
Proof.
  intros M q w1. subst q w1. unfold verify_query, validateAuthData. rewrite M.
  cbn.
  destruct (Parse.first _ (store w)) as [r|] eqn:F; cbn.
  2:{ reflexivity. }
  apply first_In in F. destruct F as [Hin _].
  pose proof (In_has_id _ _ Hin) as Ex.
  change (Parse.data (Parse.of_row r)) with (Parse.attrs r).
  change (getTime (Time (clock w))) with (of_Z (clock w)).
  destruct (JS.gt (of_Z (clock w)) _) eqn:G; cbn.
  { rewrite Ex. reflexivity. }
  destruct (strict_neq _ _) eqn:N; cbn.
  - destruct (JS.ge  _ _) eqn:Ge; cbn; rewrite Ex; reflexivity.
  - rewrite Ex. reflexivity.
Qed.

(** A call with master privilege is the program [Ret true]. *)
Lemma verify_master (authData : AuthData) (o : OtpAdapterOptions)
  (request : TriggerRequest) :
  truthy (master request) = true ->
  validateAuthData authData o request = Ret true.
Proof. intros M. unfold validateAuthData. now rewrite M. Qed.

(** The whole of a [challenge]. *)
Lemma challenge_run (cd : ChallengeData) (authData : value)
  (o : OtpAdapterOptions) (w : World) :
  let email := challengeData_email cd in
  let otp := toString (randomInt 100000 999999 (entropy w (drawn w))) in
  let expiresAt :=
    Date_of_number (JS.add (of_Z (clock w)) (otpValidityInMs (options o))) in
  let q := challenge_query email in
  let found := Parse.first q (store w) in
  let obj :=
    match found with
    | Some r =>
        Parse.set (Parse.set (Parse.of_row r) (Parse.SetOtp otp))
                  (Parse.SetExpiresAt expiresAt)
    | None =>
        Parse.set (Parse.set (Parse.set Parse.new_Object
                                (Parse.SetEmail email))
                     (Parse.SetOtp otp))
                  (Parse.SetExpiresAt expiresAt)
    end in
  let rows :=
    match found with
    | Some r =>
        Parse.update_row (Parse.objectId r)
          [Parse.SetOtp otp; Parse.SetExpiresAt expiresAt] (store w)
    | None =>
        (store w ++
         [Parse.mkRow (next_id w) (clock w)
            (Parse.mkAttrs (Some email) (Some otp) (Some expiresAt) None)])%list
    end in
  let next :=
    match found with
    | Some _ => next_id w
    | None => S (next_id w)
    end in
  run (challenge cd authData o) w =
  (match sendEmail (options o) email otp with
   | None => Returned (mkChallengeResult true)
   | Some reason => Threw reason
   end,
   mkWorld rows (clock w) next (entropy w) (S (drawn w))
     (trace w ++ [EvFirst q; EvSave obj; EvSendEmail email otp])).
Proof.
  intros email otp expiresAt q found obj rows next.
  subst email otp expiresAt q found obj rows next.
  unfold challenge, getExpirationTime, challenge_query. cbn.
  change (getTime (Time (clock w))) with (of_Z (clock w)).
  destruct (Parse.first _ (store w)) as [r|] eqn:F; cbn.
  - apply first_In in F. destruct F as [Hin _].
    rewrite (In_has_id _ _ Hin).
    destruct (sendEmail _ _ _); unfold log, with_store; cbn;
      rewrite <- !app_assoc; reflexivity.
  - destruct (sendEmail _ _ _); unfold log, with_store; cbn;
      rewrite <- !app_assoc; reflexivity.
Qed.

End Calls.

(** ** The branches of the verifier *)

Section Verifier.

Variables (authData : AuthData) (o : OtpAdapterOptions)
          (request : TriggerRequest).
Hypothesis not_master : truthy (master request) = false.

Lemma gt_expiry (now e : Z) (d : option Date) :
  d = Some (Time e) -> JS.gt (of_Z now) (Date_valueOf d) = (e <? now).
Proof. intros ->. apply gt_of_Z. Qed.

Lemma strict_neq_same (s : string) : strict_neq (Some s) s = false.
Proof. unfold strict_neq. now rewrite String.eqb_refl. Qed.

Lemma strict_neq_other (code s : string) :
  code <> s -> strict_neq (Some code) s = true.
Proof.
  intros H. unfold strict_neq. apply negb_true_iff. now apply String.eqb_neq.
Qed.

Lemma verify_not_found (w : World) :
  Parse.first (verify_query (authData_email authData)) (store w) = None ->
  run (validateAuthData authData o request) w = (Threw NotFound, log (EvFirst (verify_query (authData_email authData))) w).
Proof.
  intros F.  rewrite verify_run by exact not_master.
  cbv zeta. now rewrite F.
Qed.

Lemma verify_expired (w : World) (r : Parse.Row) (e : Z) :
  Parse.first (verify_query (authData_email authData)) (store w) = Some r ->
  Parse.expiresAt (Parse.attrs r) = Some (Time e) ->
  e < clock w ->
  run (validateAuthData authData o request) w =
  (Threw Expired,
   with_store (Parse.delete_row (Parse.objectId r) (store w))
     (log (EvDestroy (Parse.of_row r)) (log (EvFirst (verify_query (authData_email authData))) w))).
Proof.
  intros F E T.  rewrite verify_run by exact not_master.
  cbv zeta. rewrite F, (gt_expiry _ e) by exact E.
  assert (L : (e <? clock w) = true) by (apply Z.ltb_lt; lia).
  now rewrite L.
Qed.

Lemma verify_match (w : World) (r : Parse.Row) (e : Z) :
  Parse.first (verify_query (authData_email authData)) (store w) = Some r ->
  Parse.expiresAt (Parse.attrs r) = Some (Time e) ->
  clock w <= e ->
  Parse.otp (Parse.attrs r) = Some (authData_otp authData) ->
  run (validateAuthData authData o request) w =
  (Returned true,
   with_store (Parse.delete_row (Parse.objectId r) (store w))
     (log (EvDestroy (Parse.of_row r)) (log (EvFirst (verify_query (authData_email authData))) w))).
Proof.
  intros F E T C.  rewrite verify_run by exact not_master.
  cbv zeta. rewrite F, (gt_expiry _ e) by exact E.
  assert (L : (e <? clock w) = false) by (apply Z.ltb_ge; lia).
  now rewrite L, C, strict_neq_same.
Qed.

Lemma verify_mismatch (w : World) (r : Parse.Row) (e : Z) (code : string) :
  Parse.first (verify_query (authData_email authData)) (store w) = Some r ->
  Parse.expiresAt (Parse.attrs r) = Some (Time e) ->
  clock w <= e ->
  Parse.otp (Parse.attrs r) = Some code ->
  code <> authData_otp authData ->
  let a := or_zero (Parse.attempts (Parse.attrs r)) + 1 in
  let obj := Parse.set (Parse.of_row r) (Parse.SetAttempts a) in
  let w1 := log (EvFirst (verify_query (authData_email authData))) w in
  run (validateAuthData authData o request) w =
  if JS.ge (of_Z a) (maxAttempts (options o))
  then (Threw AttemptsExhausted,
        with_store (Parse.delete_row (Parse.objectId r) (store w))
                   (log (EvDestroy obj) w1))
  else (Threw Invalid,
        with_store (Parse.update_row (Parse.objectId r)
                      [Parse.SetAttempts a] (store w))
                   (log (EvSave obj) w1)).
Proof.
  intros F E T C N a obj w1. 
  rewrite verify_run by exact not_master.
  cbv zeta. rewrite F, (gt_expiry _ e) by exact E.
  assert (L : (e <? clock w) = false) by (apply Z.ltb_ge; lia).
  now rewrite L, C, (strict_neq_other _ _ N).
Qed.

End Verifier.

Section StoreAfterUpdate.

Lemma newest_update_row (i : nat) (ops : list Parse.FieldOp)
  (rows : list Parse.Row) :
  Parse.newest (Parse.update_row i ops rows)
  = option_map
      (fun r => if Parse.has_id i r
                then Parse.mkRow (Parse.objectId r) (Parse.createdAt r)
                       (Parse.apply_ops ops (Parse.attrs r))
                else r)
      (Parse.newest rows).
Proof.
  unfold Parse.update_row.
  induction rows as [|x rows IH]; simpl; [reflexivity|].
  rewrite IH. destruct (Parse.newest rows) as [r'|]; simpl; [|reflexivity].
  assert (C : forall y,
             Parse.createdAt
               (if Parse.has_id i y
                then Parse.mkRow (Parse.objectId y) (Parse.createdAt y)
                       (Parse.apply_ops ops (Parse.attrs y))
                else y) = Parse.createdAt y)
    by (intros y; now destruct (Parse.has_id i y)).
  rewrite !C. now destruct (Parse.createdAt x <? Parse.createdAt r').
Qed.

(** After the counter of the newest record of an email is saved, the
    newest record of that email is the same record with the new counter. *)
Lemma first_after_attempt (e : string) (rows : list Parse.Row)
  (r : Parse.Row) (a : Z) :
  Parse.first (verify_query e) rows = Some r ->
  Parse.first (verify_query e)
    (Parse.update_row (Parse.objectId r) [Parse.SetAttempts a] rows)
  = Some (with_attempts a r).
Proof.
  rewrite !first_verify_query. intros F.
  rewrite rows_for_update by reflexivity.
  rewrite newest_update_row, F. simpl.
  unfold Parse.has_id. now rewrite Nat.eqb_refl.
Qed.

Lemma first_of_single (e : string) (rows : list Parse.Row) (r : Parse.Row) :
  Parse.rows_for e rows = [r] ->
  Parse.first (verify_query e) rows = Some r.
Proof. intros H. now rewrite first_verify_query, H. Qed.

Lemma first_of_none (e : string) (rows : list Parse.Row) :
  Parse.rows_for e rows = [] ->
  Parse.first (verify_query e) rows = None.
Proof. intros H. now rewrite first_verify_query, H. Qed.

Lemma rows_for_after_attempt (e : string) (rows : list Parse.Row)
  (r : Parse.Row) (a : Z) :
  Parse.rows_for e rows = [r] ->
  Parse.rows_for e
    (Parse.update_row (Parse.objectId r) [Parse.SetAttempts a] rows)
  = [with_attempts a r].
Proof.
  intros H. rewrite rows_for_update by reflexivity.
  rewrite H. apply update_row_single.
Qed.

End StoreAfterUpdate.

(** ** The verifier: claims *)

(** C1. A verify call without master privilege that finds a record for
    the email, at a time that is not past the record's [expiresAt], with
    the stored code: the call returns [true] and deletes the record.
    When that record was the only one of the email (what [challenge]
    maintains), every later verify for the email against the store as
    the call left it fails with [NotFound]. *)
Theorem verify_success_consumes_record
  (w : World) (authData : AuthData) (o : OtpAdapterOptions)
  (request : TriggerRequest) (r : Parse.Row) (e : Z) :
  truthy (master request) = false ->
  Parse.first (verify_query (authData_email authData)) (store w) = Some r ->
  Parse.expiresAt (Parse.attrs r) = Some (Time e) ->
  clock w <= e ->
  Parse.otp (Parse.attrs r) = Some (authData_otp authData) ->
  let w' := snd (run (validateAuthData authData o request) w) in
  fst (run (validateAuthData authData o request) w) = Returned true
  /\ store w' = Parse.delete_row (Parse.objectId r) (store w)
  /\ ~ In r (store w')
  /\ (Parse.rows_for (authData_email authData) (store w) = [r] ->
      forall (w2 : World) (authData2 : AuthData) (o2 : OtpAdapterOptions)
             (request2 : TriggerRequest),
        store w2 = store w' ->
        authData_email authData2 = authData_email authData ->
        truthy (master request2) = false ->
        fst (run (validateAuthData authData2 o2 request2) w2)
        = Threw NotFound).
Proof.
  intros M F E T C w'. subst w'.
  rewrite (verify_match authData o request M w r e F E T C). simpl.
  repeat split.
  - apply delete_row_not_In.
  - intros One w2 authData2 o2 request2 S2 E2 M2.
    rewrite (verify_not_found authData2 o2 request2 M2); [reflexivity|].
    rewrite S2, E2. apply first_of_none.
    now apply rows_for_delete_single.
Qed.

(** C2. A verify call on an unexpired record with a code that differs
    from the stored one computes the stored counter plus one.  While
    that value is below [maxAttempts] it is saved, the call fails with
    [Invalid] and the record stays, with the same code; when it reaches
    or exceeds [maxAttempts] the record is deleted and the call fails
    with [AttemptsExhausted].  With [maxAttempts = 3] and a fresh record,
    four wrong submissions in a row give [Invalid], [Invalid],
    [AttemptsExhausted], [NotFound]. *)
Theorem verify_wrong_code_counts_attempt :
  (forall (w : World) (authData : AuthData) (o : OtpAdapterOptions)
          (request : TriggerRequest) (r : Parse.Row) (e : Z) (code : string),
      truthy (master request) = false ->
      Parse.first (verify_query (authData_email authData)) (store w) = Some r ->
      Parse.expiresAt (Parse.attrs r) = Some (Time e) ->
      clock w <= e ->
      Parse.otp (Parse.attrs r) = Some code ->
      code <> authData_otp authData ->
      let a := or_zero (Parse.attempts (Parse.attrs r)) + 1 in
      let result := run (validateAuthData authData o request) w in
      (forall n : Z, Parse.attempts (Parse.attrs r) = Some n -> a = n + 1)
      /\
      (JS.lt (of_Z a) (maxAttempts (options o)) = true ->
       fst result = Threw Invalid
       /\ store (snd result)
          = Parse.update_row (Parse.objectId r) [Parse.SetAttempts a] (store w)
       /\ Parse.first (verify_query (authData_email authData))
            (store (snd result)) = Some (with_attempts a r)
       /\ Parse.attempts (Parse.attrs (with_attempts a r)) = Some a
       /\ Parse.otp (Parse.attrs (with_attempts a r)) = Some code)
      /\ (JS.ge (of_Z a) (maxAttempts (options o)) = true ->
          fst result = Threw AttemptsExhausted
          /\ store (snd result)
             = Parse.delete_row (Parse.objectId r) (store w)
          /\ ~ In r (store (snd result))))
  /\
  (forall (w : World) (email : string) (o : OtpAdapterOptions)
          (request : TriggerRequest) (r : Parse.Row) (e : Z) (code : string)
          (c1 c2 c3 c4 : string) (t1 t2 t3 t4 : Z),
      truthy (master request) = false ->
      maxAttempts (options o) = of_Z 3 ->
      Parse.rows_for email (store w) = [r] ->
      or_zero (Parse.attempts (Parse.attrs r)) = 0 ->
      Parse.expiresAt (Parse.attrs r) = Some (Time e) ->
      Parse.otp (Parse.attrs r) = Some code ->
      code <> c1 -> code <> c2 -> code <> c3 ->
      t1 <= e -> t2 <= e -> t3 <= e ->
      let call c := validateAuthData (mkAuthData email c) o request in
      let s1 := run (call c1) (at_time t1 w) in
      let s2 := run (call c2) (at_time t2 (snd s1)) in
      let s3 := run (call c3) (at_time t3 (snd s2)) in
      let s4 := run (call c4) (at_time t4 (snd s3)) in
      [fst s1; fst s2; fst s3; fst s4]
      = [Threw Invalid; Threw Invalid; Threw AttemptsExhausted;
         Threw NotFound]).
Proof.
  split.
  - intros w authData o request r e code M F E T C N a result.
    subst result.
    rewrite (verify_mismatch authData o request M w r e code F E T C N).
    cbv zeta. fold a. split; [|split].
    + intros n Hn. subst a. rewrite Hn. unfold or_zero.
      destruct (Z.eqb_spec n 0); lia.
    + intros Lt. rewrite (lt_not_ge _ _ Lt). simpl.
      repeat split.
      * now apply first_after_attempt.
      * exact C.
    + intros Ge. rewrite Ge. simpl. split; [reflexivity|]. split.
      * reflexivity.
      * apply delete_row_not_In.
  - intros w email o request r e code c1 c2 c3 c4 t1 t2 t3 t4
           M Max One Z0 E C N1 N2 N3 T1 T2 T3 call s1 s2 s3 s4.
    assert (Step : forall (w0 : World) (r0 : Parse.Row) (c : string) (t : Z),
               Parse.rows_for email (store w0) = [r0] ->
               Parse.expiresAt (Parse.attrs r0) = Some (Time e) ->
               Parse.otp (Parse.attrs r0) = Some code ->
               code <> c -> t <= e ->
               let a := or_zero (Parse.attempts (Parse.attrs r0)) + 1 in
               run (call c) (at_time t w0) =
               if 3 <=? a
               then (Threw AttemptsExhausted,
                     with_store (Parse.delete_row (Parse.objectId r0) (store w0))
                       (log (EvDestroy
                               (Parse.set (Parse.of_row r0)
                                  (Parse.SetAttempts a)))
                          (log (EvFirst (verify_query email)) (at_time t w0))))
               else (Threw Invalid,
                     with_store (Parse.update_row (Parse.objectId r0)
                                   [Parse.SetAttempts a] (store w0))
                       (log (EvSave
                               (Parse.set (Parse.of_row r0)
                                  (Parse.SetAttempts a)))
                          (log (EvFirst (verify_query email)) (at_time t w0))))).
    { intros w0 r0 c t One0 E0 C0 N0 T0 a. unfold call.
      rewrite (verify_mismatch (mkAuthData email c) o request M
                 (at_time t w0) r0 e code);
        try assumption.
      - cbv zeta. fold a. rewrite Max, ge_of_Z. reflexivity.
      - simpl. now apply first_of_single. }
    assert (R1 := Step w r c1 t1 One E C N1 T1).
    cbv zeta in R1. rewrite Z0 in R1. simpl in R1.
    assert (One1 : Parse.rows_for email (store (snd s1)) = [with_attempts 1 r]).
    { subst s1. rewrite R1. simpl. now apply rows_for_after_attempt. }
    assert (R2 := Step (snd s1) (with_attempts 1 r) c2 t2 One1 E C N2 T2).
    cbv zeta in R2. simpl in R2.
    assert (One2 : Parse.rows_for email (store (snd s2))
                   = [with_attempts 2 (with_attempts 1 r)]).
    { subst s2. rewrite R2. simpl.
      now apply (rows_for_after_attempt email _ (with_attempts 1 r)). }
    assert (R3 := Step (snd s2) (with_attempts 2 (with_attempts 1 r)) c3 t3
                    One2 E C N3 T3).
    cbv zeta in R3. simpl in R3.
    assert (None3 : Parse.rows_for email (store (snd s3)) = []).
    { subst s3. rewrite R3. simpl.
      now apply (rows_for_delete_single email _
                   (with_attempts 2 (with_attempts 1 r))). }
    assert (R4 : run (call c4) (at_time t4 (snd s3))
                 = (Threw NotFound,
                    log (EvFirst (verify_query email)) (at_time t4 (snd s3)))).
    { unfold call.
      apply (verify_not_found (mkAuthData email c4) o request M).
      simpl. now apply first_of_none. }
    subst s4. rewrite R4. subst s3. rewrite R3. subst s2. rewrite R2.
    subst s1. rewrite R1. reflexivity.
Qed.

(** C3. A verify call that finds a record whose [expiresAt] is strictly
    before the current time deletes the record and fails with [Expired],
    whatever code is submitted. *)
Theorem verify_expired_deletes_record
  (w : World) (authData : AuthData) (o : OtpAdapterOptions)
  (request : TriggerRequest) (r : Parse.Row) (e : Z) :
  truthy (master request) = false ->
  Parse.first (verify_query (authData_email authData)) (store w) = Some r ->
  Parse.expiresAt (Parse.attrs r) = Some (Time e) ->
  e < clock w ->
  let w' := snd (run (validateAuthData authData o request) w) in
  fst (run (validateAuthData authData o request) w) = Threw Expired
  /\ store w' = Parse.delete_row (Parse.objectId r) (store w)
  /\ ~ In r (store w').
Proof.
  intros M F E T w'. subst w'.
  rewrite (verify_expired authData o request M w r e F E T). simpl.
  repeat split. apply delete_row_not_In.
Qed.

(** C7. When [request.master] is truthy, [validateAuthData] is the
    program that returns [true] and nothing else: it performs no
    operation on the store, and every world is left as it was. *)
Theorem master_request_skips_verification
  (authData : AuthData) (o : OtpAdapterOptions) (request : TriggerRequest) :
  truthy (master request) = true ->
  validateAuthData authData o request = Ret true
  /\ forall w : World,
       run (validateAuthData authData o request) w = (Returned true, w).
Proof.
  intros M. rewrite (verify_master authData o request M).
  split; reflexivity.
Qed.

(** ** The issuer *)

Section Issuer.

Lemma has_email_refl (e : string) (i : nat) (t : Z) (code : option string)
  (expiry : option Date) (a : option Z) :
  Parse.has_email e (Parse.mkRow i t (Parse.mkAttrs (Some e) code expiry a))
  = true.
Proof. unfold Parse.has_email; simpl. apply String.eqb_refl. Qed.

Lemma has_email_other (e e' : string) (i : nat) (t : Z)
  (code : option string) (expiry : option Date) (a : option Z) :
  e' <> e ->
  Parse.has_email e' (Parse.mkRow i t (Parse.mkAttrs (Some e) code expiry a))
  = false.
Proof.
  intros H. unfold Parse.has_email; simpl. apply String.eqb_neq. congruence.
Qed.

(** Every integer of [100000, 999998] is the code of some draw. *)
Lemma randomInt_onto (n : Z) :
  100000 <= n <= 999998 -> randomInt 100000 999999 (n - 100000) = n.
Proof. intros H. unfold randomInt. rewrite Z.mod_small; lia. Qed.

(** The store after a [challenge], whatever [sendEmail] does. *)
Lemma challenge_store (cd : ChallengeData) (authData : value)
  (o : OtpAdapterOptions) (w : World) :
  let email := challengeData_email cd in
  let otp := toString (randomInt 100000 999999 (entropy w (drawn w))) in
  let expiresAt :=
    Date_of_number (JS.add (of_Z (clock w)) (otpValidityInMs (options o))) in
  store (snd (run (challenge cd authData o) w)) =
  match hd_error (Parse.rows_for email (store w)) with
  | Some r =>
      Parse.update_row (Parse.objectId r)
        [Parse.SetOtp otp; Parse.SetExpiresAt expiresAt] (store w)
  | None =>
      (store w ++
       [Parse.mkRow (next_id w) (clock w)
          (Parse.mkAttrs (Some email) (Some otp) (Some expiresAt) None)])%list
  end.
Proof.
  cbv zeta. rewrite challenge_run. cbv zeta. simpl snd.
  rewrite first_challenge_query.
  now destruct (hd_error (Parse.rows_for (challengeData_email cd) (store w))).
Qed.

(** [challenge] and [validateAuthData] keep the store at one record per
    email at most. *)
Lemma challenge_keeps_one_per_email (cd : ChallengeData) (authData : value)
  (o : OtpAdapterOptions) (w : World) (e : string) :
  (List.length (Parse.rows_for e (store w)) <= 1)%nat ->
  (List.length
     (Parse.rows_for e (store (snd (run (challenge cd authData o) w)))) <= 1)%nat.
Proof.
  intros H. rewrite challenge_store. cbv zeta.
  destruct (hd_error (Parse.rows_for (challengeData_email cd) (store w)))
    as [r|] eqn:Hd.
  - rewrite rows_for_update by reflexivity. now rewrite update_row_length.
  - rewrite rows_for_app, length_app.
    destruct (String.eqb_spec e (challengeData_email cd)) as [->|Ne].
    + destruct (Parse.rows_for (challengeData_email cd) (store w));
        [|discriminate].
      unfold Parse.rows_for at 1. simpl filter.
      rewrite has_email_refl. simpl. lia.
    + unfold Parse.rows_for at 2. simpl filter.
      rewrite has_email_other by exact Ne. simpl. lia.
Qed.

Lemma verify_keeps_one_per_email (authData : AuthData)
  (o : OtpAdapterOptions) (request : TriggerRequest) (w : World)
  (e : string) :
  (List.length (Parse.rows_for e (store w)) <= 1)%nat ->
  (List.length
     (Parse.rows_for e
        (store (snd (run (validateAuthData authData o request) w)))) <= 1)%nat.
Proof.
  intros H. destruct (truthy (master request)) eqn:M.
  - now rewrite (verify_master authData o request M).
  - rewrite verify_run by exact M. cbv zeta.
    assert (D : forall i,
               (List.length (Parse.rows_for e (Parse.delete_row i (store w)))
                <= 1)%nat).
    { intros i. rewrite rows_for_delete.
      pose proof (delete_row_length i (Parse.rows_for e (store w))). lia. }
    destruct (Parse.first _ (store w)) as [r|]; [|exact H].
    destruct (JS.gt _ _); [apply D|].
    destruct (strict_neq _ _); [|apply D].
    destruct (JS.ge _ _); [apply D|].
    simpl. rewrite rows_for_update by reflexivity.
    now rewrite update_row_length.
Qed.

End Issuer.

(** ** The issuer: claims *)

(** C4. The code of a [challenge] is [crypto.randomInt(100000, 999999)]
    printed in decimal: an integer of [100000, 999998], since the upper
    bound of [randomInt] is exclusive.  It is the code that is saved and
    sent, and it is never ["999999"]. *)
Theorem challenge_code_excludes_999999
  (w : World) (cd : ChallengeData) (authData : value)
  (o : OtpAdapterOptions) :
  exists (n : Z) (obj : Parse.Object),
    100000 <= n <= 999998
    /\ trace (snd (run (challenge cd authData o) w))
       = (trace w ++ [EvFirst (challenge_query (challengeData_email cd));
                      EvSave obj;
                      EvSendEmail (challengeData_email cd) (toString n)])%list
    /\ Parse.otp (Parse.data obj) = Some (toString n)
    /\ toString n <> "999999".
Proof.
  pose proof (randomInt_range 100000 999999 (entropy w (drawn w))
                ltac:(lia)) as R.
  rewrite challenge_run. cbv zeta. simpl snd. simpl trace.
  eexists. eexists. split; [|split; [reflexivity|split]].
  - lia.
  - now destruct (Parse.first _ (store w)).
  - change "999999" with (toString 999999).
    intros H. apply toString_inj in H. lia.
Qed.

(** C5. After a [challenge] the store holds one record of the email.
    With no record before, one is created: it has no [attempts] field,
    which the verifier reads as 0, and its expiry is the current time
    plus [otpValidityInMs].  With a record before, that record gets the
    new code and the new expiry and keeps its identity, its creation
    time, its email and its counter; no record is added.
    ([otpValidityInMs] is a whole number of milliseconds and the expiry
    is in the range of [Date].) *)
Theorem challenge_upserts_one_record
  (w : World) (cd : ChallengeData) (authData : value)
  (o : OtpAdapterOptions) (v : Z) :
  otpValidityInMs (options o) = of_Z v ->
  Z.abs (clock w + v) <= 8640000000000000 ->
  let email := challengeData_email cd in
  let w' := snd (run (challenge cd authData o) w) in
  let expiry := Time (clock w + v) in
  exists code : string,
    (Parse.rows_for email (store w) = [] ->
     exists r : Parse.Row,
       store w' = (store w ++ [r])%list
       /\ Parse.rows_for email (store w') = [r]
       /\ Parse.email (Parse.attrs r) = Some email
       /\ Parse.otp (Parse.attrs r) = Some code
       /\ Parse.expiresAt (Parse.attrs r) = Some expiry
       /\ Parse.attempts (Parse.attrs r) = None
       /\ or_zero (Parse.attempts (Parse.attrs r)) = 0)
    /\ (forall r : Parse.Row,
          Parse.rows_for email (store w) = [r] ->
          store w'
          = Parse.update_row (Parse.objectId r)
              [Parse.SetOtp code; Parse.SetExpiresAt expiry] (store w)
          /\ Parse.rows_for email (store w') = [reissued code expiry r]
          /\ Parse.attempts (Parse.attrs (reissued code expiry r))
             = Parse.attempts (Parse.attrs r)
          /\ List.length (store w') = List.length (store w))
    /\ ((List.length (Parse.rows_for email (store w)) <= 1)%nat ->
        List.length (Parse.rows_for email (store w')) = 1%nat).
Proof.
  intros V Range email w' expiry. subst w'.
  exists (toString (randomInt 100000 999999 (entropy w (drawn w)))).
  rewrite challenge_store. cbv zeta. fold email.
  rewrite V, Date_of_number_sum by exact Range. fold expiry.
  split; [|split].
  - intros None0. rewrite None0. simpl hd_error. cbv iota.
    eexists. split; [reflexivity|].
    rewrite rows_for_app, None0. unfold Parse.rows_for at 1. simpl filter.
    rewrite has_email_refl. simpl. repeat split.
  - intros r One. rewrite One. simpl hd_error. cbv iota.
    split; [reflexivity|]. split; [|split].
    + rewrite rows_for_update by reflexivity. rewrite One.
      rewrite update_row_single. reflexivity.
    + reflexivity.
    + apply update_row_length.
  - intros Le.
    destruct (Parse.rows_for email (store w)) as [|r [|r' rest]] eqn:Rows.
    + simpl hd_error. cbv iota. rewrite rows_for_app, Rows.
      unfold Parse.rows_for. simpl filter.
      fold email. rewrite has_email_refl. reflexivity.
    + simpl hd_error. cbv iota. rewrite rows_for_update by reflexivity.
      rewrite update_row_length, Rows. reflexivity.
    + simpl in Le. lia.
Qed.

(** C8. A [challenge] looks the record up, saves it with the new code
    and the new expiry, and only then calls [sendEmail].  When
    [sendEmail] rejects, the call throws the reason of the rejection,
    and the store is the one a delivered challenge leaves: it holds the
    record with the new code and expiry. *)
Theorem challenge_saves_before_sending
  (w : World) (cd : ChallengeData) (authData : value)
  (o : OtpAdapterOptions) :
  let email := challengeData_email cd in
  let result := run (challenge cd authData o) w in
  let expiry :=
    Date_of_number (JS.add (of_Z (clock w)) (otpValidityInMs (options o))) in
  exists (code : string) (obj : Parse.Object) (r : Parse.Row),
    trace (snd result)
    = (trace w ++ [EvFirst (challenge_query email); EvSave obj;
                   EvSendEmail email code])%list
    /\ Parse.otp (Parse.data obj) = Some code
    /\ Parse.expiresAt (Parse.data obj) = Some expiry
    /\ In r (store (snd result))
    /\ Parse.has_email email r = true
    /\ Parse.otp (Parse.attrs r) = Some code
    /\ Parse.expiresAt (Parse.attrs r) = Some expiry
    /\ (forall reason : error,
          sendEmail (options o) email code = Some reason ->
          fst result = Threw reason)
    /\ (sendEmail (options o) email code = None ->
        fst result = Returned (mkChallengeResult true))
    /\ (forall send : SendEmail,
          store (snd result)
          = store (snd (run (challenge cd authData
                               (mkOtpAdapterOptions
                                  (mkOtpOptions (otpValidityInMs (options o))
                                     (maxAttempts (options o)) send)
                                  (module o)))
                            w))).
Proof.
  intros email result expiry. subst result.
  set (code := toString (randomInt 100000 999999 (entropy w (drawn w)))).
  assert (Indep : forall send : SendEmail,
             store (snd (run (challenge cd authData o) w))
             = store (snd (run (challenge cd authData
                                  (mkOtpAdapterOptions
                                     (mkOtpOptions
                                        (otpValidityInMs (options o))
                                        (maxAttempts (options o)) send)
                                     (module o)))
                               w)))
    by (intros send; rewrite !challenge_store; reflexivity).
  pose proof (challenge_run cd authData o w) as Run. cbv zeta in Run.
  fold email code expiry in Run.
  pose proof (challenge_store cd authData o w) as St. cbv zeta in St.
  fold email code expiry in St. rewrite <- first_challenge_query in St.
  destruct (Parse.first (challenge_query email) (store w)) as [r0|] eqn:F.
  - apply first_In in F. destruct F as [Hin Hm].
    exists code. eexists.
    exists (Parse.mkRow (Parse.objectId r0) (Parse.createdAt r0)
              (Parse.apply_ops [Parse.SetOtp code; Parse.SetExpiresAt expiry]
                 (Parse.attrs r0))).
    split; [rewrite Run; reflexivity|].
    split; [reflexivity|]. split; [reflexivity|].
    split.
    { rewrite St. unfold Parse.update_row. apply in_map_iff.
      exists r0. split; [|exact Hin].
      unfold Parse.has_id. now rewrite Nat.eqb_refl. }
    split; [exact Hm|]. split; [reflexivity|]. split; [reflexivity|].
    split; [|split].
    + intros reason S. rewrite Run. simpl. now rewrite S.
    + intros S. rewrite Run. simpl. now rewrite S.
    + exact Indep.
  - exists code. eexists.
    exists (Parse.mkRow (next_id w) (clock w)
              (Parse.mkAttrs (Some email) (Some code) (Some expiry) None)).
    split; [rewrite Run; reflexivity|].
    split; [reflexivity|]. split; [reflexivity|].
    split.
    { rewrite St. apply in_or_app. right. now left. }
    split; [apply has_email_refl|]. split; [reflexivity|].
    split; [reflexivity|].
    split; [|split].
    + intros reason S. rewrite Run. simpl. now rewrite S.
    + intros S. rewrite Run. simpl. now rewrite S.
    + exact Indep.
Qed.

(** C10. A [challenge] that creates the record sends no [attempts]: the
    row has no counter.  The verifier reads the missing counter as 0, so
    the first wrong guess on that record, while it is unexpired, computes
    1; whenever 1 is below [maxAttempts] the call saves [attempts = 1]
    and fails with [Invalid]. *)
Theorem fresh_record_first_wrong_guess
  (w : World) (cd : ChallengeData) (challengeAuthData : value)
  (o : OtpAdapterOptions) :
  let email := challengeData_email cd in
  Parse.rows_for email (store w) = [] ->
  let w1 := snd (run (challenge cd challengeAuthData o) w) in
  exists (code : string) (obj : Parse.Object) (r : Parse.Row),
    trace w1 = (trace w ++ [EvFirst (challenge_query email); EvSave obj;
                            EvSendEmail email code])%list
    /\ existsb sets_attempts (Parse.dirty obj) = false
    /\ Parse.rows_for email (store w1) = [r]
    /\ Parse.attempts (Parse.attrs r) = None
    /\ or_zero (Parse.attempts (Parse.attrs r)) = 0
    /\ forall (w2 : World) (authData : AuthData) (o2 : OtpAdapterOptions)
              (request : TriggerRequest) (e : Z) (stored : string),
         store w2 = store w1 ->
         authData_email authData = email ->
         truthy (master request) = false ->
         Parse.expiresAt (Parse.attrs r) = Some (Time e) ->
         clock w2 <= e ->
         Parse.otp (Parse.attrs r) = Some stored ->
         stored <> authData_otp authData ->
         JS.lt (of_Z 1) (maxAttempts (options o2)) = true ->
         let result := run (validateAuthData authData o2 request) w2 in
         fst result = Threw Invalid
         /\ Parse.rows_for email (store (snd result)) = [with_attempts 1 r].
Proof.
  intros email None0 w1. subst w1.
  pose proof (challenge_run cd challengeAuthData o w) as Run.
  cbv zeta in Run. rewrite first_challenge_query in Run.
  fold email in Run. rewrite None0 in Run. simpl hd_error in Run.
  cbv iota in Run. rewrite Run. simpl snd. simpl trace. simpl store.
  eexists. eexists. eexists.
  split; [reflexivity|]. split; [reflexivity|].
  split.
  { rewrite rows_for_app, None0. unfold Parse.rows_for. simpl filter.
    rewrite has_email_refl. reflexivity. }
  split; [reflexivity|]. split; [reflexivity|].
  intros w2 authData o2 request e stored S2 E2 M X T C N Lt result.
  subst result.
  assert (One : Parse.rows_for (authData_email authData) (store w2)
                = [Parse.mkRow (next_id w) (clock w)
                     (Parse.mkAttrs (Some email)
                        (Some (toString (randomInt 100000 999999
                                           (entropy w (drawn w)))))
                        (Some (Date_of_number
                                 (JS.add (of_Z (clock w))
                                    (otpValidityInMs (options o)))))
                        None)]).
  { rewrite S2, E2, rows_for_app, None0. unfold Parse.rows_for.
    simpl filter. rewrite has_email_refl. reflexivity. }
  rewrite (verify_mismatch authData o2 request M w2 _ e stored
             (first_of_single _ _ _ One) X T C N).
  cbv zeta. simpl Parse.attempts. change (or_zero None + 1) with 1.
  rewrite (lt_not_ge _ _ Lt). simpl. split; [reflexivity|].
  rewrite E2 in One. exact (rows_for_after_attempt _ _ _ 1 One).
Qed.

(** ** The configuration: claim *)

(** C6. [validateOptions] accepts every configuration whose
    [otpValidityInMs] and [maxAttempts] are numbers greater than 0, whole
    or not, whose [sendEmail] is a function and whose [module] is an
    [OtpAdapter].  It refuses, with the error of the field, a missing
    [options], an [otpValidityInMs] or a [maxAttempts] that is not a
    number or is [<= 0], a [sendEmail] that is not a function and a
    [module] that is not an [OtpAdapter]. *)
Theorem validateOptions_checks_each_field (props : string -> value) :
  let otpOptions := props "options" in
  let validity := JS.get otpOptions "otpValidityInMs" in
  let attempts := JS.get otpOptions "maxAttempts" in
  let send := JS.get otpOptions "sendEmail" in
  let adapter := props "module" in
  (truthy otpOptions = true -> positive validity -> positive attempts ->
   typeof send = TFunction -> instanceof_OtpAdapter adapter = true ->
   validateOptions (VObject props) = Returned tt)
  /\ (truthy otpOptions = false ->
      validateOptions (VObject props)
      = Threw (Error "Options object is required"))
  /\ (truthy otpOptions = true -> refused validity ->
      validateOptions (VObject props)
      = Threw (Error "Invalid or missing otpValidityInMs"))
  /\ (truthy otpOptions = true -> positive validity -> refused attempts ->
      validateOptions (VObject props)
      = Threw (Error "Invalid or missing maxAttempts"))
  /\ (truthy otpOptions = true -> positive validity -> positive attempts ->
      typeof send <> TFunction ->
      validateOptions (VObject props)
      = Threw (Error "Invalid or missing sendEmail function"))
  /\ (truthy otpOptions = true -> positive validity -> positive attempts ->
      typeof send = TFunction -> instanceof_OtpAdapter adapter = false ->
      validateOptions (VObject props)
      = Threw (Error "Module must be an instance of OtpAdapter")).
Proof.
  intros otpOptions validity attempts send adapter.
  assert (Pos : forall v, positive v ->
             negb (type_tag_eqb (typeof v) TNumber) || le_zero v = false).
  { intros v (n & -> & G). simpl. now apply gt_zero_not_le. }
  assert (Ref : forall v, refused v ->
             negb (type_tag_eqb (typeof v) TNumber) || le_zero v = true).
  { intros v [T|L].
    - destruct v; simpl in *; try reflexivity. now destruct T.
    - rewrite L. apply orb_true_r. }
  assert (Fun : forall v, typeof v <> TFunction ->
             negb (type_tag_eqb (typeof v) TFunction) = true).
  { intros v T. destruct v; simpl in *; try reflexivity. now destruct T. }
  unfold validateOptions. simpl JS.get.
  fold otpOptions. fold validity attempts send adapter.
  repeat split.
  - intros T V A S I.
    now rewrite T, (Pos _ V), (Pos _ A), S, I.
  - intros T. now rewrite T.
  - intros T V. now rewrite T, (Ref _ V).
  - intros T V A. now rewrite T, (Pos _ V), (Ref _ A).
  - intros T V A S. now rewrite T, (Pos _ V), (Pos _ A), (Fun _ S).
  - intros T V A S I. now rewrite T, (Pos _ V), (Pos _ A), S, I.
Qed.

(** ** Calls that overlap and calls that do not *)

Section Sequential.

Variables (email : string) (o : OtpAdapterOptions) (request : TriggerRequest).
Hypothesis not_master : truthy (master request) = false.


End Sequential.


(** ** The scenarios, through the theorems *)

Lemma verify_success_consumes_record_witness :
  fst (run (validateAuthData Scenario.right_code Scenario.readme
              Scenario.client) Scenario.live) = Returned true
  /\ store (snd (run (validateAuthData Scenario.right_code Scenario.readme
                        Scenario.client) Scenario.live)) = []
  /\ fst (run (validateAuthData Scenario.right_code Scenario.readme
                 Scenario.client) Scenario.empty) = Threw NotFound.
Proof.
  destruct (verify_success_consumes_record Scenario.live Scenario.right_code
              Scenario.readme Scenario.client Scenario.fresh 301000)
    as (H1 & H2 & _ & H4);
    [reflexivity | reflexivity | reflexivity | cbn; lia | reflexivity |].
  split; [exact H1|]. split; [rewrite H2; reflexivity|].
  apply H4; reflexivity.
Defined.

Lemma verify_wrong_code_counts_attempt_witness :
  fst (run (validateAuthData Scenario.wrong_code Scenario.readme
              Scenario.client) Scenario.live) = Threw Invalid
  /\ Scenario.counters
       (snd (run (validateAuthData Scenario.wrong_code Scenario.readme
                    Scenario.client) Scenario.live)) = [Some 1]
  /\ fst (run (validateAuthData Scenario.wrong_code
                 (Scenario.opts_max (of_Z 1)) Scenario.client) Scenario.live)
     = Threw AttemptsExhausted
  /\ fst (run_all [Scenario.verify "000000" Scenario.readme;
                   Scenario.verify "111111" Scenario.readme;
                   Scenario.verify "222222" Scenario.readme;
                   Scenario.verify "333333" Scenario.readme] Scenario.live)
     = [Threw Invalid; Threw Invalid; Threw AttemptsExhausted; Threw NotFound].
Proof.
  destruct verify_wrong_code_counts_attempt as [General Four].
  destruct (General Scenario.live Scenario.wrong_code Scenario.readme
              Scenario.client Scenario.fresh 301000 "482913")
    as (_ & Below & _);
    [reflexivity | reflexivity | reflexivity | cbn; lia | reflexivity
    | discriminate |].
  destruct (Below eq_refl) as (B1 & B2 & _).
  destruct (General Scenario.live Scenario.wrong_code
              (Scenario.opts_max (of_Z 1)) Scenario.client Scenario.fresh
              301000 "482913")
    as (_ & _ & Reached);
    [reflexivity | reflexivity | reflexivity | cbn; lia | reflexivity
    | discriminate |].
  destruct (Reached eq_refl) as (R1 & _).
  split; [exact B1|]. split; [unfold Scenario.counters; rewrite B2; reflexivity|].
  split; [exact R1|].
  exact (Four Scenario.live Scenario.alice Scenario.readme Scenario.client
           Scenario.fresh 301000 "482913"
           "000000" "111111" "222222" "333333" 2000 2000 2000 2000
           eq_refl eq_refl eq_refl eq_refl eq_refl eq_refl
           ltac:(discriminate) ltac:(discriminate) ltac:(discriminate)
           ltac:(lia) ltac:(lia) ltac:(lia)).
Defined.

Lemma verify_expired_deletes_record_witness :
  fst (run (validateAuthData Scenario.right_code Scenario.readme
              Scenario.client) Scenario.late) = Threw Expired
  /\ store (snd (run (validateAuthData Scenario.right_code Scenario.readme
                        Scenario.client) Scenario.late)) = [].
Proof.
  destruct (verify_expired_deletes_record Scenario.late Scenario.right_code
              Scenario.readme Scenario.client Scenario.fresh 301000)
    as (H1 & H2 & _);
    [reflexivity | reflexivity | reflexivity | cbn; lia |].
  split; [exact H1 | rewrite H2; reflexivity].
Defined.

Lemma master_request_skips_verification_witness :
  run (validateAuthData Scenario.wrong_code Scenario.readme
         Scenario.cloud_code) Scenario.live
  = (Returned true, Scenario.live).
Proof.
  exact (proj2 (master_request_skips_verification Scenario.wrong_code
                  Scenario.readme Scenario.cloud_code eq_refl) Scenario.live).
Defined.

Lemma challenge_upserts_one_record_witness :
  List.length
    (Parse.rows_for Scenario.alice
       (store (snd (run (challenge (mkChallengeData Scenario.alice) VUndefined
                           Scenario.readme) Scenario.empty)))) = 1%nat
  /\ exists code : string,
       Parse.rows_for Scenario.alice
         (store (snd (run (challenge (mkChallengeData Scenario.alice)
                             VUndefined Scenario.readme) Scenario.live)))
       = [reissued code (Time 302000) Scenario.fresh].
Proof.
  split.
  - destruct (challenge_upserts_one_record Scenario.empty
                (mkChallengeData Scenario.alice) VUndefined Scenario.readme
                300000)
      as (code & _ & _ & One); [reflexivity | cbn; lia |].
    apply One. exact (Nat.le_0_l 1).
  - destruct (challenge_upserts_one_record Scenario.live
                (mkChallengeData Scenario.alice) VUndefined Scenario.readme
                300000)
      as (code & _ & Again & _); [reflexivity | cbn; lia |].
    exists code. exact (proj1 (proj2 (Again Scenario.fresh eq_refl))).
Defined.

Lemma challenge_saves_before_sending_witness :
  fst (run (challenge (mkChallengeData Scenario.alice) VUndefined
              (Scenario.opts Scenario.smtp_down)) Scenario.empty)
  = Threw (Error "SMTP connection refused")
  /\ store (snd (run (challenge (mkChallengeData Scenario.alice) VUndefined
                        (Scenario.opts Scenario.smtp_down)) Scenario.empty))
     = [Scenario.fresh].
Proof.
  destruct (challenge_saves_before_sending Scenario.empty
              (mkChallengeData Scenario.alice) VUndefined
              (Scenario.opts Scenario.smtp_down))
    as (code & obj & r & _ & _ & _ & _ & _ & _ & _ & Fails & _ & Same).
  split.
  - apply Fails. reflexivity.
  - rewrite (Same Scenario.delivered). reflexivity.
Defined.

Lemma fresh_record_first_wrong_guess_witness :
  exists r : Parse.Row,
    Parse.rows_for Scenario.alice
      (store (snd (run (challenge (mkChallengeData Scenario.alice) VUndefined
                          Scenario.readme) Scenario.empty))) = [r]
    /\ Parse.attempts (Parse.attrs r) = None
    /\ Parse.rows_for Scenario.alice
         (store (snd (run (validateAuthData Scenario.wrong_code
                             Scenario.readme Scenario.client)
                        (snd (run (challenge (mkChallengeData Scenario.alice)
                                     VUndefined Scenario.readme)
                                Scenario.empty)))))
       = [with_attempts 1 r].
Proof.
  destruct (fresh_record_first_wrong_guess Scenario.empty
              (mkChallengeData Scenario.alice) VUndefined Scenario.readme
              eq_refl)
    as (code & obj & r & _ & _ & Rows & Absent & _ & Guess).
  exists r. split; [exact Rows|]. split; [exact Absent|].
  assert (R : r = Scenario.fresh).
  { vm_compute in Rows. now injection Rows as <-. }
  subst r.
  exact (proj2 (Guess
                  (snd (run (challenge (mkChallengeData Scenario.alice)
                               VUndefined Scenario.readme) Scenario.empty))
                  Scenario.wrong_code Scenario.readme Scenario.client
                  301000 "482913" eq_refl eq_refl eq_refl eq_refl
                  ltac:(vm_compute; discriminate) eq_refl
                  ltac:(discriminate) eq_refl)).
Defined.

Lemma validateOptions_checks_each_field_witness :
  validateOptions
    (Scenario.config (VNumber (of_Z 300000)) (VNumber (of_Z 3)) VFunction
       VOtpAdapter) = Returned tt
  /\ validateOptions
       (Scenario.config (VNumber (of_Z 300000)) (VNumber (of_Z 0)) VFunction
          VOtpAdapter) = Threw (Error "Invalid or missing maxAttempts")
  /\ validateOptions
       (Scenario.config (VString "5 minutes") (VNumber (of_Z 3)) VFunction
          VOtpAdapter) = Threw (Error "Invalid or missing otpValidityInMs").
Proof.
  split; [|split].
  - apply (proj1 (validateOptions_checks_each_field
                    (Scenario.config_fields (VNumber (of_Z 300000))
                       (VNumber (of_Z 3)) VFunction VOtpAdapter)));
      try reflexivity.
    + exists (of_Z 300000). split; reflexivity.
    + exists (of_Z 3). split; reflexivity.
  - apply (proj1 (proj2 (proj2 (proj2
             (validateOptions_checks_each_field
                (Scenario.config_fields (VNumber (of_Z 300000))
                   (VNumber (of_Z 0)) VFunction VOtpAdapter))))));
      try reflexivity.
    + exists (of_Z 300000). split; reflexivity.
    + right. reflexivity.
  - apply (proj1 (proj2 (proj2
             (validateOptions_checks_each_field
                (Scenario.config_fields (VString "5 minutes")
                   (VNumber (of_Z 3)) VFunction VOtpAdapter)))));
      try reflexivity.
    left. discriminate.
Defined.


(** ** Where the code departs from the specification *)

(** [maxAttempts = 2.5] is not a strictly positive integer, and
    [validateOptions] accepts it. *)
Lemma validateOptions_accepts_fractional_maxAttempts :
  is_positive_integer (Finite (5 # 2)) = false
  /\ validateOptions
       (Scenario.config (VNumber (of_Z 300000)) (VNumber (Finite (5 # 2)))
          VFunction VOtpAdapter) = Returned tt.
Proof. split; reflexivity. Qed.

(** The record a [challenge] creates has no [attempts] field: the field
    is not 0, it is missing. *)
Lemma challenge_creates_record_without_attempts :
  store (snd (run (challenge (mkChallengeData Scenario.alice) VUndefined
                     Scenario.readme) Scenario.empty))
  = [Scenario.fresh]
  /\ Parse.attempts (Parse.attrs Scenario.fresh) = None
  /\ Parse.attempts (Parse.attrs Scenario.fresh) <> Some 0.
Proof. split; [reflexivity|]. split; [reflexivity|discriminate]. Qed.

(** With [maxAttempts = 1] the first wrong guess on the record a
    [challenge] has just created saves nothing: the record is deleted,
    and no row with [attempts = 1] is in the store. *)
Lemma first_wrong_guess_deletes_when_maxAttempts_is_1 :
  store (snd (run (challenge (mkChallengeData Scenario.alice) VUndefined
                     (Scenario.opts_max (of_Z 1))) Scenario.empty))
  = [Scenario.fresh]
  /\ fst (run (validateAuthData Scenario.wrong_code
                 (Scenario.opts_max (of_Z 1)) Scenario.client)
            (snd (run (challenge (mkChallengeData Scenario.alice) VUndefined
                         (Scenario.opts_max (of_Z 1))) Scenario.empty)))
     = Threw AttemptsExhausted
  /\ store (snd (run (validateAuthData Scenario.wrong_code
                        (Scenario.opts_max (of_Z 1)) Scenario.client)
                   (snd (run (challenge (mkChallengeData Scenario.alice)
                                VUndefined (Scenario.opts_max (of_Z 1)))
                           Scenario.empty))))
     = [].
Proof. repeat split. Qed.


(** * Further properties of the module *)

(** ** The verifier, whatever it is given *)

Section VerifierAlways.

Lemma strict_neq_false (stored : option string) (submitted : string) :
  strict_neq stored submitted = false -> stored = Some submitted.
Proof.
  unfold strict_neq. destruct stored as [s|]; [|discriminate].
  intros H. apply negb_false_iff in H. apply String.eqb_eq in H. now subst.
Qed.

Lemma In_update_row (i : nat) (ops : list Parse.FieldOp)
  (rows : list Parse.Row) (r' : Parse.Row) :
  In r' (Parse.update_row i ops rows) ->
  exists r : Parse.Row,
    In r rows
    /\ Parse.objectId r' = Parse.objectId r
    /\ Parse.createdAt r' = Parse.createdAt r
    /\ (r' = r \/ Parse.attrs r' = Parse.apply_ops ops (Parse.attrs r)).
Proof.
  unfold Parse.update_row. intros H. apply in_map_iff in H.
  destruct H as (r & <- & Hin). exists r. split; [exact Hin|].
  destruct (Parse.has_id i r); simpl; auto.
Qed.

Lemma In_delete_row (i : nat) (rows : list Parse.Row) (r : Parse.Row) :
  In r (Parse.delete_row i rows) -> In r rows.
Proof. unfold Parse.delete_row. intros H. now apply filter_In in H. Qed.

(** X1. A verify call for an email that has no record fails with
    [NotFound] after its one lookup, and changes nothing in the store. *)
Theorem verify_without_record_changes_nothing
  (w : World) (authData : AuthData) (o : OtpAdapterOptions)
  (request : TriggerRequest) :
  truthy (master request) = false ->
  Parse.rows_for (authData_email authData) (store w) = [] ->
  let result := run (validateAuthData authData o request) w in
  fst result = Threw NotFound
  /\ store (snd result) = store w
  /\ trace (snd result)
     = (trace w ++ [EvFirst (verify_query (authData_email authData))])%list.
Proof.
  intros M None0 result. subst result.
  rewrite (verify_not_found authData o request M w)
    by (now apply first_of_none).
  repeat split.
Qed.

(** X2. Whatever the store, the time and the request, [validateAuthData]
    returns [true] or throws one of its four errors: it never returns
    [false].  It never adds a record, and every record it leaves has the
    identity, the creation time, the email, the code and the expiry of a
    record that was there before. *)
Theorem verify_outcomes_and_footprint
  (w : World) (authData : AuthData) (o : OtpAdapterOptions)
  (request : TriggerRequest) :
  let result := run (validateAuthData authData o request) w in
  (fst result = Returned true \/ fst result = Threw NotFound
   \/ fst result = Threw Expired \/ fst result = Threw Invalid
   \/ fst result = Threw AttemptsExhausted)
  /\ (List.length (store (snd result)) <= List.length (store w))%nat
  /\ next_id (snd result) = next_id w
  /\ forall r' : Parse.Row,
       In r' (store (snd result)) ->
       exists r : Parse.Row,
         In r (store w)
         /\ Parse.objectId r' = Parse.objectId r
         /\ Parse.createdAt r' = Parse.createdAt r
         /\ Parse.email (Parse.attrs r') = Parse.email (Parse.attrs r)
         /\ Parse.otp (Parse.attrs r') = Parse.otp (Parse.attrs r)
         /\ Parse.expiresAt (Parse.attrs r') = Parse.expiresAt (Parse.attrs r).
Proof.
  intros result. subst result.
  assert (Same : forall r', In r' (store w) ->
             exists r : Parse.Row,
               In r (store w)
               /\ Parse.objectId r' = Parse.objectId r
               /\ Parse.createdAt r' = Parse.createdAt r
               /\ Parse.email (Parse.attrs r') = Parse.email (Parse.attrs r)
               /\ Parse.otp (Parse.attrs r') = Parse.otp (Parse.attrs r)
               /\ Parse.expiresAt (Parse.attrs r')
                  = Parse.expiresAt (Parse.attrs r))
    by (intros r' H; exists r'; repeat split; exact H).
  assert (Del : forall i r', In r' (Parse.delete_row i (store w)) ->
             exists r : Parse.Row,
               In r (store w)
               /\ Parse.objectId r' = Parse.objectId r
               /\ Parse.createdAt r' = Parse.createdAt r
               /\ Parse.email (Parse.attrs r') = Parse.email (Parse.attrs r)
               /\ Parse.otp (Parse.attrs r') = Parse.otp (Parse.attrs r)
               /\ Parse.expiresAt (Parse.attrs r')
                  = Parse.expiresAt (Parse.attrs r))
    by (intros i r' H; apply Same; now apply In_delete_row in H).
  destruct (truthy (master request)) eqn:M.
  - rewrite (verify_master authData o request M). simpl.
    repeat split; auto.
  - rewrite verify_run by exact M. cbv zeta.
    destruct (Parse.first _ (store w)) as [r|].
    2:{ simpl. repeat split; auto 6. }
    destruct (JS.gt _ _).
    { simpl. repeat split; eauto 6 using delete_row_length. }
    destruct (strict_neq _ _).
    2:{ simpl. repeat split; eauto 6 using delete_row_length. }
    destruct (JS.ge _ _).
    { simpl. repeat split; eauto 6 using delete_row_length. }
    simpl. repeat split; auto 6.
    + now rewrite update_row_length.
    + intros r' H. apply In_update_row in H.
      destruct H as (r0 & Hin & Hid & Hc & [->|Ha]).
      * now apply Same.
      * exists r0. rewrite Ha. repeat split; assumption.
Qed.

(** X3. Without master privilege, a [true] from [validateAuthData] means
    that the newest record of the email held exactly the submitted code
    and was not past its expiry, and that this record has been deleted. *)
Theorem verify_success_means_stored_code
  (w : World) (authData : AuthData) (o : OtpAdapterOptions)
  (request : TriggerRequest) :
  truthy (master request) = false ->
  fst (run (validateAuthData authData o request) w) = Returned true ->
  exists r : Parse.Row,
    Parse.first (verify_query (authData_email authData)) (store w) = Some r
    /\ Parse.otp (Parse.attrs r) = Some (authData_otp authData)
    /\ JS.gt (of_Z (clock w)) (Date_valueOf (Parse.expiresAt (Parse.attrs r)))
       = false
    /\ store (snd (run (validateAuthData authData o request) w))
       = Parse.delete_row (Parse.objectId r) (store w)
    /\ ~ In r (store (snd (run (validateAuthData authData o request) w))).
Proof.
  intros M. rewrite verify_run by exact M. cbv zeta.
  destruct (Parse.first _ (store w)) as [r|]; [|discriminate].
  destruct (JS.gt _ _) eqn:G; [discriminate|].
  destruct (strict_neq _ _) eqn:N.
  { destruct (JS.ge _ _); discriminate. }
  intros _. exists r. simpl.
  split; [reflexivity|]. split; [now apply strict_neq_false|].
  split; [exact G|]. split; [reflexivity|apply delete_row_not_In].
Qed.

(** X4. A record whose [expiresAt] is missing or is an invalid [Date]
    never expires: at no time does a verify call that finds it fail with
    [Expired]. *)
Theorem record_without_valid_expiry_never_expires
  (w : World) (authData : AuthData) (o : OtpAdapterOptions)
  (request : TriggerRequest) (r : Parse.Row) (t : Z) :
  Parse.first (verify_query (authData_email authData)) (store w) = Some r ->
  Parse.expiresAt (Parse.attrs r) = None
  \/ Parse.expiresAt (Parse.attrs r) = Some InvalidDate ->
  fst (run (validateAuthData authData o request) (at_time t w))
  <> Threw Expired.
Proof.
  intros F X.
  destruct (truthy (master request)) eqn:M.
  - rewrite (verify_master authData o request M). discriminate.
  - rewrite verify_run by exact M. cbv zeta. simpl store. rewrite F.
    assert (G : JS.gt (of_Z (clock (at_time t w)))
                  (Date_valueOf (Parse.expiresAt (Parse.attrs r))) = false)
      by (destruct X as [-> | ->]; reflexivity).
    rewrite G.
    destruct (strict_neq _ _); [|discriminate].
    destruct (JS.ge _ _); discriminate.
Qed.

(** X5. When [maxAttempts] is [NaN] or [Infinity] the attempt limit is
    off: a wrong code on an unexpired record fails with [Invalid] and the
    record stays, however many attempts it has counted. *)
Theorem nan_maxAttempts_never_exhausts
  (w : World) (authData : AuthData) (o : OtpAdapterOptions)
  (request : TriggerRequest) (r : Parse.Row) (e : Z) (code : string) :
  maxAttempts (options o) = NaN \/ maxAttempts (options o) = PosInf ->
  truthy (master request) = false ->
  Parse.first (verify_query (authData_email authData)) (store w) = Some r ->
  Parse.expiresAt (Parse.attrs r) = Some (Time e) ->
  clock w <= e ->
  Parse.otp (Parse.attrs r) = Some code ->
  code <> authData_otp authData ->
  let result := run (validateAuthData authData o request) w in
  let a := or_zero (Parse.attempts (Parse.attrs r)) + 1 in
  fst result = Threw Invalid
  /\ Parse.first (verify_query (authData_email authData)) (store (snd result))
     = Some (with_attempts a r).
Proof.
  intros Max M F E T C N result a. subst result.
  rewrite (verify_mismatch authData o request M w r e code F E T C N).
  cbv zeta.
  assert (G : JS.ge (of_Z (or_zero (Parse.attempts (Parse.attrs r)) + 1))
                (maxAttempts (options o)) = false)
    by (destruct Max as [-> | ->]; reflexivity).
  rewrite G. simpl. split; [reflexivity|].
  now apply first_after_attempt.
Qed.

End VerifierAlways.

(** ** What a call leaves alone, and what the store stays *)

Section Frames.

Lemma same_id_same_row (rows : list Parse.Row) (x y : Parse.Row) :
  unique_ids rows -> In x rows -> In y rows ->
  Parse.objectId x = Parse.objectId y -> x = y.
Proof.
  unfold unique_ids. induction rows as [|z rows IH]; simpl; [easy|].
  intros ND Hx Hy E. inversion ND as [|? ? Hnot ND']; subst.
  destruct Hx as [->|Hx], Hy as [->|Hy]; auto.
  - exfalso. apply Hnot. rewrite E. now apply in_map.
  - exfalso. apply Hnot. rewrite <- E. now apply in_map.
Qed.

Lemma has_email_unique (e e' : string) (r : Parse.Row) :
  Parse.has_email e r = true -> Parse.has_email e' r = true -> e = e'.
Proof.
  unfold Parse.has_email. destruct (Parse.email (Parse.attrs r)) as [s|];
    [|discriminate].
  intros H1 H2. apply String.eqb_eq in H1, H2. congruence.
Qed.

Lemma delete_row_other (i : nat) (rows : list Parse.Row) :
  (forall x, In x rows -> Parse.has_id i x = false) ->
  Parse.delete_row i rows = rows.
Proof.
  unfold Parse.delete_row. induction rows as [|x rows IH]; simpl; intros H;
    [reflexivity|].
  rewrite (H x) by now left. simpl. f_equal. apply IH. auto.
Qed.

Lemma update_row_other (i : nat) (ops : list Parse.FieldOp)
  (rows : list Parse.Row) :
  (forall x, In x rows -> Parse.has_id i x = false) ->
  Parse.update_row i ops rows = rows.
Proof.
  unfold Parse.update_row. induction rows as [|x rows IH]; simpl; intros H;
    [reflexivity|].
  rewrite (H x) by now left. f_equal. apply IH. auto.
Qed.

Lemma other_email_rows_miss_id (rows : list Parse.Row) (r : Parse.Row)
  (e e' : string) :
  unique_ids rows -> In r rows -> Parse.has_email e r = true -> e' <> e ->
  forall x, In x (Parse.rows_for e' rows) ->
            Parse.has_id (Parse.objectId r) x = false.
Proof.
  intros U Hr He Ne x Hx. unfold Parse.rows_for in Hx.
  apply filter_In in Hx. destruct Hx as [Hin He'].
  unfold Parse.has_id. apply Nat.eqb_neq. intros E.
  apply Ne. rewrite (same_id_same_row rows x r U Hin Hr E) in He'.
  exact (has_email_unique e' e r He' He).
Qed.

(** The store after an unprivileged or a privileged verify call: as it
    was, or without the record found, or with that record's counter
    saved. *)
Lemma verify_store_cases (authData : AuthData) (o : OtpAdapterOptions)
  (request : TriggerRequest) (w : World) :
  let w' := snd (run (validateAuthData authData o request) w) in
  next_id w' = next_id w
  /\ (store w' = store w
      \/ exists (r : Parse.Row) (a : Z),
           In r (store w)
           /\ Parse.has_email (authData_email authData) r = true
           /\ (store w' = Parse.delete_row (Parse.objectId r) (store w)
               \/ store w'
                  = Parse.update_row (Parse.objectId r)
                      [Parse.SetAttempts a] (store w))).
Proof.
  cbv zeta. destruct (truthy (master request)) eqn:M.
  - rewrite (verify_master authData o request M). simpl. auto.
  - rewrite verify_run by exact M. cbv zeta.
    destruct (Parse.first _ (store w)) as [r|] eqn:F; [|simpl; auto].
    apply first_In in F. destruct F as [Hin Hm].
    change (Parse.has_email (authData_email authData) r = true) in Hm.
    destruct (JS.gt _ _); [simpl; split; [reflexivity|]; right;
                           exists r, 0; auto|].
    destruct (strict_neq _ _); [|simpl; split; [reflexivity|]; right;
                                 exists r, 0; auto].
    destruct (JS.ge _ _); simpl; (split; [reflexivity|]); right.
    + exists r, 0. auto.
    + exists r, (or_zero (Parse.attempts (Parse.attrs r)) + 1). auto.
Qed.

Lemma challenge_next_id (cd : ChallengeData) (authData : value)
  (o : OtpAdapterOptions) (w : World) :
  next_id (snd (run (challenge cd authData o) w)) =
  match hd_error (Parse.rows_for (challengeData_email cd) (store w)) with
  | Some _ => next_id w
  | None => S (next_id w)
  end.
Proof.
  rewrite challenge_run. cbv zeta. simpl snd. simpl next_id.
  now rewrite first_challenge_query.
Qed.

Lemma hd_error_rows_for (e : string) (rows : list Parse.Row) (r : Parse.Row) :
  hd_error (Parse.rows_for e rows) = Some r ->
  In r rows /\ Parse.has_email e r = true.
Proof.
  intros H. apply (filter_In (Parse.has_email e)).
  fold (Parse.rows_for e rows).
  destruct (Parse.rows_for e rows); [discriminate|].
  injection H as ->. now left.
Qed.

(** X6. A verify call for one email leaves the records of every other
    email as they were. *)
Theorem verify_leaves_other_emails
  (w : World) (authData : AuthData) (o : OtpAdapterOptions)
  (request : TriggerRequest) (e' : string) :
  unique_ids (store w) ->
  e' <> authData_email authData ->
  Parse.rows_for e' (store (snd (run (validateAuthData authData o request) w)))
  = Parse.rows_for e' (store w).
Proof.
  intros U Ne.
  destruct (verify_store_cases authData o request w)
    as [_ [-> | (r & a & Hin & He & [-> | ->])]].
  - reflexivity.
  - rewrite rows_for_delete. apply delete_row_other.
    now apply (other_email_rows_miss_id _ r (authData_email authData)).
  - rewrite rows_for_update by reflexivity. apply update_row_other.
    now apply (other_email_rows_miss_id _ r (authData_email authData)).
Qed.

(** X7. A challenge for one email leaves the records of every other
    email as they were, and removes no record. *)
Theorem challenge_leaves_other_emails
  (w : World) (cd : ChallengeData) (authData : value)
  (o : OtpAdapterOptions) (e' : string) :
  unique_ids (store w) ->
  e' <> challengeData_email cd ->
  Parse.rows_for e' (store (snd (run (challenge cd authData o) w)))
  = Parse.rows_for e' (store w)
  /\ (List.length (store w)
      <= List.length (store (snd (run (challenge cd authData o) w))))%nat.
Proof.
  intros U Ne. rewrite challenge_store. cbv zeta.
  destruct (hd_error (Parse.rows_for (challengeData_email cd) (store w)))
    as [r|] eqn:Hd.
  - apply hd_error_rows_for in Hd. destruct Hd as [Hin He]. split.
    + rewrite rows_for_update by reflexivity. apply update_row_other.
      now apply (other_email_rows_miss_id _ r (challengeData_email cd)).
    + now rewrite update_row_length.
  - split.
    + rewrite rows_for_app. unfold Parse.rows_for at 2. simpl filter.
      rewrite has_email_other by exact Ne. apply app_nil_r.
    + rewrite length_app. lia.
Qed.

Lemma NoDup_snoc {A : Type} (l : list A) (x : A) :
  NoDup l -> ~ In x l -> NoDup (l ++ [x]).
Proof.
  induction l as [|y l IH]; simpl; intros ND Hx.
  - constructor; [easy|constructor].
  - inversion ND as [|? ? Hy ND']; subst. constructor.
    + intros H. apply in_app_or in H. destruct H as [H|[H|[]]]; auto.
    + apply IH; auto.
Qed.

Lemma ids_update_row (i : nat) (ops : list Parse.FieldOp)
  (rows : list Parse.Row) :
  map Parse.objectId (Parse.update_row i ops rows) = map Parse.objectId rows.
Proof.
  unfold Parse.update_row. rewrite map_map. apply map_ext.
  intros r. now destruct (Parse.has_id i r).
Qed.

Lemma unique_ids_delete_row (i : nat) (rows : list Parse.Row) :
  unique_ids rows -> unique_ids (Parse.delete_row i rows).
Proof.
  unfold unique_ids, Parse.delete_row.
  induction rows as [|x rows IH]; simpl; intros ND; [constructor|].
  inversion ND as [|? ? Hx ND']; subst.
  destruct (negb (Parse.has_id i x)); simpl; [|auto].
  constructor; [|auto]. intros H. apply Hx.
  apply in_map_iff in H. destruct H as (y & E & Hy).
  apply filter_In in Hy. apply in_map_iff. exists y. tauto.
Qed.

Lemma well_formed_call (c : Call) (w : World) :
  well_formed w -> well_formed (run_call c w).
Proof.
  intros (One & U & B). unfold well_formed.
  destruct c as [cd a o | a o r | t]; unfold run_call.
  - split; [|split].
    + intros e. apply challenge_keeps_one_per_email. apply One.
    + unfold unique_ids. rewrite challenge_store. cbv zeta.
      destruct (hd_error _) as [r|].
      * now rewrite ids_update_row.
      * rewrite map_app. simpl. apply NoDup_snoc; [exact U|].
        intros H. apply in_map_iff in H. destruct H as (x & E & Hx).
        rewrite Forall_forall in B. specialize (B x Hx). lia.
    + rewrite Forall_forall in *. intros x.
      rewrite challenge_next_id, challenge_store. cbv zeta.
      destruct (hd_error _) as [r|].
      * intros Hx. apply In_update_row in Hx.
        destruct Hx as (y & Hy & -> & _). now apply B.
      * intros Hx. apply in_app_or in Hx. destruct Hx as [Hx|[<-|[]]].
        -- specialize (B x Hx). lia.
        -- simpl. lia.
  - destruct (verify_store_cases a o r w)
      as [Nx Cases]. cbv zeta in Nx, Cases.
    split; [|split].
    + intros e. apply verify_keeps_one_per_email. apply One.
    + destruct Cases as [-> | (x & n & _ & _ & [-> | ->])].
      * exact U.
      * now apply unique_ids_delete_row.
      * unfold unique_ids. now rewrite ids_update_row.
    + rewrite Forall_forall in *. intros y. rewrite Nx. revert y.
      destruct Cases as [-> | (x & n & _ & _ & [-> | ->])].
      * exact B.
      * intros y Hy. apply In_delete_row in Hy. now apply B.
      * intros y Hy. apply In_update_row in Hy.
        destruct Hy as (z & Hz & -> & _). now apply B.
  - exact (conj One (conj U B)).
Qed.

(** X8. One record per email at most, and rows with distinct
    [objectId]s below the next one: a store like this stays like this
    through any sequence of challenges, verifications and waits, and the
    empty store is like this. *)
Theorem well_formed_is_invariant (cs : list Call) (w : World) :
  (store w = [] \/ well_formed w) -> well_formed (run_calls cs w).
Proof.
  intros H.
  assert (W : well_formed w).
  { destruct H as [E|H]; [|exact H]. unfold well_formed, one_per_email,
      unique_ids. rewrite E. simpl. repeat split; auto; constructor. }
  clear H. unfold run_calls. revert w W.
  induction cs as [|c cs IH]; simpl; intros w W; [exact W|].
  apply IH. now apply well_formed_call.
Qed.

End Frames.

(** ** A challenge and the verifications that follow *)

Section IssueThenVerify.

Lemma challenge_record (w : World) (cd : ChallengeData) (authData : value)
  (o : OtpAdapterOptions) (v : Z) :
  otpValidityInMs (options o) = of_Z v ->
  Z.abs (clock w + v) <= 8640000000000000 ->
  (List.length (Parse.rows_for (challengeData_email cd) (store w)) <= 1)%nat ->
  let email := challengeData_email cd in
  let code := toString (randomInt 100000 999999 (entropy w (drawn w))) in
  let w1 := snd (run (challenge cd authData o) w) in
  clock w1 = clock w
  /\ (exists obj : Parse.Object,
        trace w1 = (trace w ++ [EvFirst (challenge_query email); EvSave obj;
                                EvSendEmail email code])%list)
  /\ exists r' : Parse.Row,
       Parse.rows_for email (store w1) = [r']
       /\ Parse.otp (Parse.attrs r') = Some code
       /\ Parse.expiresAt (Parse.attrs r') = Some (Time (clock w + v))
       /\ Parse.attempts (Parse.attrs r')
          = match Parse.rows_for email (store w) with
            | r :: _ => Parse.attempts (Parse.attrs r)
            | [] => None
            end.
Proof.
  intros V Range Le email code w1. subst w1. fold email in Le.
  split; [|split].
  - rewrite challenge_run. reflexivity.
  - rewrite challenge_run. cbv zeta. simpl. eexists. reflexivity.
  - rewrite challenge_store. cbv zeta. fold email code.
    rewrite V, Date_of_number_sum by exact Range.
    destruct (Parse.rows_for email (store w)) as [|r [|r2 rest]] eqn:Rows.
    + simpl hd_error. cbv iota. eexists. split.
      * rewrite rows_for_app, Rows. unfold Parse.rows_for. simpl filter.
        fold email. rewrite has_email_refl. reflexivity.
      * repeat split.
    + simpl hd_error. cbv iota. eexists. split.
      * rewrite rows_for_update by reflexivity. rewrite Rows.
        apply update_row_single.
      * repeat split.
    + simpl in Le. lia.
Qed.

(** X9. After a challenge, and until the expiry, a verify call for the
    email succeeds if and only if it submits the code that the challenge
    passed to [sendEmail], whether the email was delivered or not. *)
Theorem only_the_issued_code_verifies
  (w : World) (cd : ChallengeData) (challengeAuthData : value)
  (o o2 : OtpAdapterOptions) (request : TriggerRequest) (v t : Z) :
  otpValidityInMs (options o) = of_Z v ->
  Z.abs (clock w + v) <= 8640000000000000 ->
  (List.length (Parse.rows_for (challengeData_email cd) (store w)) <= 1)%nat ->
  truthy (master request) = false ->
  t <= clock w + v ->
  let email := challengeData_email cd in
  let w1 := snd (run (challenge cd challengeAuthData o) w) in
  exists (code : string) (obj : Parse.Object),
    trace w1 = (trace w ++ [EvFirst (challenge_query email); EvSave obj;
                            EvSendEmail email code])%list
    /\ forall submitted : string,
         fst (run (validateAuthData (mkAuthData email submitted) o2 request)
                (at_time t w1)) = Returned true
         <-> submitted = code.
Proof.
  intros V Range Le M T email w1.
  destruct (challenge_record w cd challengeAuthData o v V Range Le)
    as (_ & (obj & Tr) & (r' & Rows & C & E & _)).
  fold email in Tr, Rows. fold w1 in Tr, Rows.
  eexists. exists obj. split; [exact Tr|].
  intros submitted.
  assert (F : Parse.first (verify_query email) (store (at_time t w1)) = Some r')
    by (simpl; now apply first_of_single).
  split.
  - intros R.
    destruct (String.eqb_spec
                (toString (randomInt 100000 999999 (entropy w (drawn w))))
                submitted) as [Eq|Ne]; [now symmetry|].
    rewrite (verify_mismatch (mkAuthData email submitted) o2 request M
               (at_time t w1) r' (clock w + v) _ F E T C Ne) in R.
    cbv zeta in R. destruct (JS.ge _ _); discriminate.
  - intros ->.
    now rewrite (verify_match (mkAuthData email _) o2 request M
                   (at_time t w1) r' (clock w + v) F E T C).
Qed.

(** X10. A new challenge does not give back the attempts already used:
    after it, a wrong code is counted on top of the counter the record
    had before the challenge. *)
Theorem new_challenge_keeps_attempts_used
  (w : World) (cd : ChallengeData) (challengeAuthData : value)
  (o o2 : OtpAdapterOptions) (request : TriggerRequest) (v t : Z)
  (r : Parse.Row) (submitted : string) :
  otpValidityInMs (options o) = of_Z v ->
  Z.abs (clock w + v) <= 8640000000000000 ->
  Parse.rows_for (challengeData_email cd) (store w) = [r] ->
  truthy (master request) = false ->
  t <= clock w + v ->
  toString (randomInt 100000 999999 (entropy w (drawn w))) <> submitted ->
  let email := challengeData_email cd in
  let w1 := snd (run (challenge cd challengeAuthData o) w) in
  let a := or_zero (Parse.attempts (Parse.attrs r)) + 1 in
  fst (run (validateAuthData (mkAuthData email submitted) o2 request)
         (at_time t w1))
  = if JS.ge (of_Z a) (maxAttempts (options o2))
    then Threw AttemptsExhausted
    else Threw Invalid.
Proof.
  intros V Range One M T Ne email w1 a.
  assert (Le : (List.length (Parse.rows_for (challengeData_email cd) (store w))
                <= 1)%nat) by (rewrite One; simpl; lia).
  destruct (challenge_record w cd challengeAuthData o v V Range Le)
    as (_ & _ & (r' & Rows & C & E & A)).
  fold email in Rows, A. fold w1 in Rows. fold email in One.
  rewrite One in A.
  assert (F : Parse.first (verify_query email) (store (at_time t w1)) = Some r')
    by (simpl; now apply first_of_single).
  rewrite (verify_mismatch (mkAuthData email submitted) o2 request M
             (at_time t w1) r' (clock w + v) _ F E T C Ne).
  cbv zeta. rewrite A. fold a. now destruct (JS.ge _ _).
Qed.

End IssueThenVerify.

Section BruteForce.

Variables (email code : string) (o : OtpAdapterOptions)
          (request : TriggerRequest) (e m : Z).
Hypothesis not_master : truthy (master request) = false.
Hypothesis limit : maxAttempts (options o) = of_Z m.

Lemma or_zero_Some (a : Z) : or_zero (Some a) = a.
Proof. unfold or_zero. destruct (Z.eqb_spec a 0); congruence. Qed.

Lemma run_all_app {A : Type} (l1 l2 : list (prog A)) (w : World) :
  run_all (l1 ++ l2) w =
  (fst (run_all l1 w) ++ fst (run_all l2 (snd (run_all l1 w))),
   snd (run_all l2 (snd (run_all l1 w))))%list.
Proof.
  revert w. induction l1 as [|p l1 IH]; intros w; simpl.
  - now destruct (run_all l2 w).
  - destruct (run p w) as [r w']. rewrite IH.
    destruct (run_all l1 w') as [rs w'']. simpl.
    now destruct (run_all l2 w'').
Qed.

Lemma wrong_guess_on_single (w : World) (r : Parse.Row) (c : string) :
  Parse.rows_for email (store w) = [r] ->
  Parse.expiresAt (Parse.attrs r) = Some (Time e) ->
  clock w <= e ->
  Parse.otp (Parse.attrs r) = Some code ->
  code <> c ->
  let a := or_zero (Parse.attempts (Parse.attrs r)) + 1 in
  let result := run (validateAuthData (mkAuthData email c) o request) w in
  clock (snd result) = clock w
  /\ (m <= a ->
      fst result = Threw AttemptsExhausted
      /\ Parse.rows_for email (store (snd result)) = [])
  /\ (a < m ->
      fst result = Threw Invalid
      /\ Parse.rows_for email (store (snd result)) = [with_attempts a r]).
Proof.
  intros One E T C N a result. subst result.
  rewrite (verify_mismatch (mkAuthData email c) o request not_master w r e
             code (first_of_single _ _ _ One) E T C N).
  cbv zeta. fold a. rewrite limit, ge_of_Z.
  destruct (Z.leb_spec m a) as [Le|Lt]; simpl.
  - split; [reflexivity|]. split; [|lia].
    intros _. split; [reflexivity|]. now apply rows_for_delete_single.
  - split; [reflexivity|]. split; [lia|].
    intros _. split; [reflexivity|]. now apply rows_for_after_attempt.
Qed.

Lemma wrong_guesses_below_limit (cs : list string) :
  forall (w : World) (r : Parse.Row),
    Parse.rows_for email (store w) = [r] ->
    Parse.expiresAt (Parse.attrs r) = Some (Time e) ->
    clock w <= e ->
    Parse.otp (Parse.attrs r) = Some code ->
    Forall (fun c => code <> c) cs ->
    or_zero (Parse.attempts (Parse.attrs r)) + Z.of_nat (List.length cs) < m ->
    let calls :=
      map (fun c => validateAuthData (mkAuthData email c) o request) cs in
    fst (run_all calls w) = repeat (Threw Invalid) (List.length cs)
    /\ clock (snd (run_all calls w)) = clock w
    /\ exists r' : Parse.Row,
         Parse.rows_for email (store (snd (run_all calls w))) = [r']
         /\ Parse.otp (Parse.attrs r') = Some code
         /\ Parse.expiresAt (Parse.attrs r') = Some (Time e)
         /\ or_zero (Parse.attempts (Parse.attrs r'))
            = or_zero (Parse.attempts (Parse.attrs r))
              + Z.of_nat (List.length cs).
Proof.
  induction cs as [|c cs IH]; intros w r One E T C W Lt calls; subst calls.
  - simpl. split; [reflexivity|]. split; [reflexivity|].
    exists r. repeat split; auto. lia.
  - inversion W as [|? ? Nc W']; subst.
    change (List.length (c :: cs)) with (S (List.length cs)) in *.
    rewrite Nat2Z.inj_succ in *. simpl map. simpl run_all.
    destruct (wrong_guess_on_single w r c One E T C Nc) as (K & _ & Below).
    destruct Below as [R1 Rows1]; [lia|].
    destruct (run (validateAuthData (mkAuthData email c) o request) w)
      as [r1 w1]. simpl in K, R1, Rows1.
    specialize (IH w1 (with_attempts
                         (or_zero (Parse.attempts (Parse.attrs r)) + 1) r)
                  Rows1 E ltac:(lia) C W').
    simpl Parse.attempts in IH. rewrite or_zero_Some in IH.
    specialize (IH ltac:(lia)). cbv zeta in IH.
    destruct (run_all _ w1) as [rs w2]. simpl in *.
    destruct IH as (Rs & K2 & r' & Rows2 & C2 & E2 & A2).
    split; [now rewrite R1, Rs|]. split; [lia|].
    exists r'. repeat split; auto. lia.
Qed.

End BruteForce.

(** X11. With a whole [maxAttempts], a record that has counted [a]
    attempts survives exactly [maxAttempts - a - 1] wrong codes: each of
    them fails with [Invalid], the next wrong code fails with
    [AttemptsExhausted], and the record is deleted. *)
Theorem wrong_guesses_until_exhausted
  (w : World) (email code : string) (o : OtpAdapterOptions)
  (request : TriggerRequest) (r : Parse.Row) (e m : Z)
  (cs : list string) (last : string) :
  truthy (master request) = false ->
  maxAttempts (options o) = of_Z m ->
  Parse.rows_for email (store w) = [r] ->
  Parse.expiresAt (Parse.attrs r) = Some (Time e) ->
  clock w <= e ->
  Parse.otp (Parse.attrs r) = Some code ->
  Forall (fun c => code <> c) cs ->
  code <> last ->
  or_zero (Parse.attempts (Parse.attrs r)) + Z.of_nat (List.length cs) + 1 = m ->
  let calls :=
    map (fun c => validateAuthData (mkAuthData email c) o request)
        (cs ++ [last]) in
  fst (run_all calls w)
  = (repeat (Threw Invalid) (List.length cs) ++ [Threw AttemptsExhausted])%list
  /\ Parse.rows_for email (store (snd (run_all calls w))) = [].
Proof.
  intros M Max One E T C W Nl Sum calls. subst calls.
  rewrite map_app, run_all_app.
  destruct (wrong_guesses_below_limit email code o request e m M Max cs w r
              One E T C W ltac:(lia))
    as (Rs & K & r' & Rows & C' & E' & A').
  cbv zeta in Rs, K, Rows. simpl fst. simpl snd. rewrite Rs.
  set (w1 := snd (run_all _ w)) in *.
  destruct (wrong_guess_on_single email code o request e m M Max w1 r' last
              Rows E' ltac:(lia) C' Nl) as (_ & Reached & _).
  destruct Reached as [R Gone]; [lia|].
  simpl map. simpl run_all.
  destruct (run (validateAuthData (mkAuthData email last) o request) w1)
    as [r1 w2]. simpl in *. now rewrite R.
Qed.

(** ** The configuration, in full *)

Section Configuration.

Lemma number_check_spec (v : value) :
  negb (type_tag_eqb (typeof v) TNumber) || le_zero v = false
  <-> passes_number_check v.
Proof.
  unfold passes_number_check. split.
  - intros H. apply orb_false_iff in H. destruct H as [T L].
    destruct v; simpl in T; try discriminate.
    exists n. split; [reflexivity|].
    destruct n as [| | |q]; simpl in L; try discriminate; auto.
    right. right. exists q. split; [reflexivity|].
    apply Qnot_le_lt. intros Le. apply Qle_bool_iff in Le.
    unfold JS.le, of_Z, inject_Z in L. congruence.
  - intros (n & -> & [-> | [-> | (q & -> & Pos)]]); try reflexivity.
    simpl. unfold JS.le, of_Z, inject_Z.
    destruct (Qle_bool q (0 # 1)) eqn:Le; [|reflexivity].
    apply Qle_bool_iff in Le. exfalso. exact (Qlt_not_le _ _ Pos Le).
Qed.

Lemma instanceof_spec (v : value) :
  instanceof_OtpAdapter v = true <-> v = VOtpAdapter.
Proof. split; [destruct v; simpl; congruence|now intros ->]. Qed.

Lemma typeof_function_spec (v : value) :
  negb (type_tag_eqb (typeof v) TFunction) = false <-> v = VFunction.
Proof.
  split; [|now intros ->].
  destruct v; simpl; congruence.
Qed.

Lemma string_check_spec (v : value) :
  negb (truthy v) || negb (type_tag_eqb (typeof v) TString) = false
  <-> exists s : string, v = VString s /\ s <> "".
Proof.
  split.
  - intros H. apply orb_false_iff in H. destruct H as [T S].
    destruct v; simpl in S; try discriminate.
    exists s. split; [reflexivity|]. simpl in T.
    rewrite negb_involutive in T. now apply String.eqb_neq.
  - intros (s & -> & Ne). simpl. rewrite negb_involutive, orb_false_r.
    now apply String.eqb_neq.
Qed.

(** X12. [validateOptions] returns normally for exactly the objects
    whose [options] is truthy, whose [otpValidityInMs] and [maxAttempts]
    are numbers that are not [<= 0] (a positive number, [Infinity], and
    also [NaN]), whose [sendEmail] is a function and whose [module] is an
    [OtpAdapter]. *)
Theorem validateOptions_accepts_exactly (cfg : value) :
  validateOptions cfg = Returned tt
  <-> exists props : string -> value,
        cfg = VObject props
        /\ truthy (props "options") = true
        /\ passes_number_check (JS.get (props "options") "otpValidityInMs")
        /\ passes_number_check (JS.get (props "options") "maxAttempts")
        /\ JS.get (props "options") "sendEmail" = VFunction
        /\ props "module" = VOtpAdapter.
Proof.
  split.
  - intros H.
    assert (Obj : exists props, cfg = VObject props).
    { destruct cfg; simpl in H; try discriminate; eauto. }
    destruct Obj as (props & ->). exists props. split; [reflexivity|].
    unfold validateOptions in H. simpl JS.get in H.
    destruct (truthy (props "options")) eqn:T; [|discriminate].
    simpl negb in H. cbv iota in H.
    destruct (negb _ || le_zero (JS.get (props "options") "otpValidityInMs"))
      eqn:V; [discriminate|].
    destruct (negb _ || le_zero (JS.get (props "options") "maxAttempts"))
      eqn:A; [discriminate|].
    destruct (negb (type_tag_eqb (typeof (JS.get (props "options") "sendEmail"))
                      TFunction)) eqn:S; [discriminate|].
    destruct (instanceof_OtpAdapter (props "module")) eqn:I; [|discriminate].
    split; [reflexivity|].
    split; [now apply number_check_spec|].
    split; [now apply number_check_spec|].
    split; [now apply typeof_function_spec|now apply instanceof_spec].
  - intros (props & -> & T & V & A & S & I).
    apply number_check_spec in V, A.
    unfold validateOptions. simpl JS.get.
    now rewrite T, V, A, S, I.
Qed.

(** X13. What [initializeOtpAdapter] returns never fails the [module]
    check of [validateOptions]: it is accepted as soon as the options
    themselves are. *)
Theorem initializeOtpAdapter_passes_module_check (options : value) :
  validateOptions (initializeOtpAdapter options)
  <> Threw (Error "Module must be an instance of OtpAdapter")
  /\ (validateOptions (initializeOtpAdapter options) = Returned tt
      <-> truthy options = true
          /\ passes_number_check (JS.get options "otpValidityInMs")
          /\ passes_number_check (JS.get options "maxAttempts")
          /\ JS.get options "sendEmail" = VFunction).
Proof.
  unfold initializeOtpAdapter, object, validateOptions. simpl JS.get.
  simpl lookup. simpl instanceof_OtpAdapter. simpl negb at 5.
  destruct (truthy options) eqn:T; simpl negb; cbv iota.
  2:{ split; [discriminate|]. split; [discriminate|]. intros (H & _).
      discriminate. }
  destruct (negb _ || le_zero (JS.get options "otpValidityInMs")) eqn:V.
  { split; [discriminate|]. split; [discriminate|]. intros (_ & H & _).
    apply number_check_spec in H. congruence. }
  destruct (negb _ || le_zero (JS.get options "maxAttempts")) eqn:A.
  { split; [discriminate|]. split; [discriminate|]. intros (_ & _ & H & _).
    apply number_check_spec in H. congruence. }
  destruct (negb (type_tag_eqb (typeof (JS.get options "sendEmail"))
                    TFunction)) eqn:S.
  { split; [discriminate|]. split; [discriminate|]. intros (_ & _ & _ & H).
    rewrite H in S. discriminate. }
  split; [discriminate|]. split; [|reflexivity]. intros _.
  split; [reflexivity|].
  split; [now apply number_check_spec|].
  split; [now apply number_check_spec|now apply typeof_function_spec].
Qed.

End Configuration.

(** ** The earlier release *)

Section Releases.

(** X14. For a request without master privilege, the current
    [validateAuthData] does what the one of the earlier release did:
    same outcome, same store, same operations. *)
Theorem validateAuthData_unchanged_without_master
  (authData : AuthData) (o : OtpAdapterOptions) (request : TriggerRequest)
  (w : World) :
  truthy (master request) = false ->
  run (validateAuthData authData o request) w
  = run (V1.validateAuthData authData o) w.
Proof.
  intros M. unfold validateAuthData, V1.validateAuthData. rewrite M. cbn.
  destruct (Parse.first _ (store w)) as [r|]; cbn; [|reflexivity].
  destruct (JS.gt _ _); cbn.
  { now destruct (existsb _ _). }
  destruct (strict_neq _ _); cbn.
  - destruct (JS.ge _ _); cbn; now destruct (existsb _ _).
  - now destruct (existsb _ _).
Qed.

(** X15. The earlier [validateOptions] accepted exactly what the current
    one accepts among the configurations whose [applicationId] and
    [mountPath] are non-empty strings. *)
Theorem validateOptions_dropped_two_checks (cfg : value) :
  V1.validateOptions cfg = Returned tt
  <-> validateOptions cfg = Returned tt
      /\ (exists s : string,
            JS.get (JS.get cfg "options") "applicationId" = VString s
            /\ s <> "")
      /\ (exists s : string,
            JS.get (JS.get cfg "options") "mountPath" = VString s
            /\ s <> "").
Proof.
  rewrite <- !string_check_spec.
  unfold V1.validateOptions, validateOptions.
  destruct cfg; try (split; [discriminate|intros [H _]; discriminate]).
  simpl JS.get.
  destruct (negb (truthy (props "options")));
    [split; [discriminate|intros [H _]; discriminate]|].
  destruct (negb _ || le_zero (JS.get (props "options") "otpValidityInMs"));
    [split; [discriminate|intros [H _]; discriminate]|].
  destruct (negb (truthy (JS.get (props "options") "applicationId")) || _)
    eqn:App; [split; [discriminate|intros (_ & H & _); discriminate]|].
  destruct (negb (truthy (JS.get (props "options") "mountPath")) || _)
    eqn:Mnt; [split; [discriminate|intros (_ & _ & H); discriminate]|].
  tauto.
Qed.

End Releases.

(** ** The [afterSave] hook *)

Section AfterSave.

(** X16. For a user without email (none, or the empty string)
    [updateAuthDataAfterSave] does nothing, whatever the [authData].  For
    a user with an email whose [authData] has no [otp] entry (the user
    signed up another way) it throws a [TypeError]. *)
Theorem hook_without_email_or_without_otp (user : Hook.User) :
  (Hook.getEmail user = None \/ Hook.getEmail user = Some "" ->
   Hook.updateAuthDataAfterSave user = Returned None)
  /\ (forall email : string,
        Hook.getEmail user = Some email -> email <> "" ->
        Hook.get (Hook.authData user) "otp" = Returned Hook.JUndefined
        \/ Hook.get (Hook.authData user) "otp" = Returned Hook.JNull
        \/ (exists e, Hook.get (Hook.authData user) "otp" = Threw e) ->
        exists message : string,
          Hook.updateAuthDataAfterSave user = Threw (TypeError message)).
Proof.
  unfold Hook.updateAuthDataAfterSave. split.
  - intros [-> | ->]; reflexivity.
  - intros email -> Ne H.
    assert (B : negb (String.eqb email "") = true)
      by (apply negb_true_iff; now apply String.eqb_neq).
    rewrite B. destruct H as [-> | [-> | (e & H)]]; simpl; eauto.
    destruct (Hook.authData user); simpl in *; try discriminate;
      injection H as <-; eauto.
Qed.

(** X17. For a user with an email and an [otp] entry in [authData]: when
    [authData.otp.id] is the email the hook saves nothing; otherwise it
    saves an [authData] whose [otp.id] and [otp.email] are the email, and
    which is the old one everywhere else. *)
Theorem hook_aligns_otp_identity
  (user : Hook.User) (email : string)
  (authData otp : string -> Hook.json) :
  Hook.getEmail user = Some email -> email <> "" ->
  Hook.authData user = Hook.JObject authData ->
  authData "otp" = Hook.JObject otp ->
  (otp "id" = Hook.JString email ->
   Hook.updateAuthDataAfterSave user = Returned None)
  /\ (otp "id" <> Hook.JString email ->
      exists authData' otp' : string -> Hook.json,
        Hook.updateAuthDataAfterSave user
        = Returned (Some (Hook.JObject authData'))
        /\ authData' "otp" = Hook.JObject otp'
        /\ otp' "id" = Hook.JString email
        /\ otp' "email" = Hook.JString email
        /\ (forall k : string, k <> "id" -> k <> "email" -> otp' k = otp k)
        /\ (forall k : string, k <> "otp" -> authData' k = authData k)).
Proof.
  intros E Ne A O. unfold Hook.updateAuthDataAfterSave. rewrite E, A.
  assert (B : negb (String.eqb email "") = true)
    by (apply negb_true_iff; now apply String.eqb_neq).
  rewrite B. simpl. rewrite O. simpl. split.
  - intros ->. simpl. now rewrite String.eqb_refl.
  - intros Id.
    assert (S : Hook.strict_neq (otp "id") email = true).
    { destruct (otp "id"); simpl; try reflexivity.
      apply negb_true_iff. apply String.eqb_neq. congruence. }
    rewrite S. eexists. eexists. split; [reflexivity|].
    simpl. repeat split.
    + intros k K1 K2.
      apply String.eqb_neq in K1, K2. now rewrite K1, K2.
    + intros k K. apply String.eqb_neq in K. now rewrite K.
Qed.

(** X18. The save of the hook does not call for another one: run again
    on the user as the hook saved it, the hook saves nothing. *)
Theorem hook_settles_after_one_save (user : Hook.User) (authData : Hook.json) :
  Hook.updateAuthDataAfterSave user = Returned (Some authData) ->
  Hook.updateAuthDataAfterSave (Hook.saved user authData) = Returned None.
Proof.
  unfold Hook.updateAuthDataAfterSave, Hook.saved. simpl.
  destruct (Hook.getEmail user) as [email|]; [|discriminate].
  destruct (negb (String.eqb email "")); [|discriminate].
  destruct (Hook.authData user) as [| | | | |props]; simpl; try discriminate.
  destruct (props "otp") as [| | | | |otp]; simpl; try discriminate.
  destruct (Hook.strict_neq (otp "id") email); [|discriminate].
  simpl. intros H. injection H as <-. simpl.
  now rewrite String.eqb_refl.
Qed.

End AfterSave.

(** ** The schema *)

Section SchemaSetup.

Lemma find_app {A : Type} (f : A -> bool) (l l' : list A) :
  find f (l ++ l') =
  match find f l with
  | Some x => Some x
  | None => find f l'
  end.
Proof.
  induction l as [|x l IH]; simpl; [reflexivity|].
  now destruct (f x).
Qed.

(** The outcome and the classes of [setupOtpTable], case by case. *)
Lemma setup_cases (w : Schema.Server) :
  fst (Schema.setupOtpTable w) = Returned tt
  /\ Schema.get_fault (snd (Schema.setupOtpTable w)) = Schema.get_fault w
  /\ Schema.save_fault (snd (Schema.setupOtpTable w)) = Schema.save_fault w
  /\ Schema.classes (snd (Schema.setupOtpTable w)) =
     match Schema.find_class "OTP" (Schema.classes w), Schema.save_fault w with
     | None, None =>
         (Schema.classes w ++
          [Schema.mkClass "OTP"
             [("email", Schema.FString); ("otp", Schema.FString);
              ("expiresAt", Schema.FDate); ("attempts", Schema.FNumber)]
             [] [("email_idx", [("email", 1)])]])%list
     | _, _ => Schema.classes w
     end.
Proof.
  destruct w as [cls gf sf con].
  assert (G : forall s : Schema.Server,
             Schema.schema_get (Schema.new_Schema "OTP") s =
             match Schema.get_fault s with
             | Some e => (Threw e, s)
             | None =>
                 match Schema.find_class "OTP" (Schema.classes s) with
                 | Some _ => (Returned tt, s)
                 | None =>
                     (Threw (ParseError 103 "Class OTP does not exist."), s)
                 end
             end) by reflexivity.
  unfold Schema.setupOtpTable, Schema.try_catch, Schema.bind.
  change Schema.OTP_TABLE_NAME with "OTP". rewrite G.
  unfold Schema.schema_save, Schema.print. simpl.
  destruct gf as [ge|];
    destruct (Schema.find_class "OTP" cls) as [c|] eqn:F;
    destruct sf as [se|]; simpl; rewrite ?F; simpl; repeat split.
Qed.

(** X19. [setupOtpTable] never throws, whatever goes wrong with the
    store.  It adds the class [OTP] when the store has none and
    [schema.save()] goes through, and leaves the classes of the store as
    they are in every other case.  The class it adds has the columns of
    [OTP_TABLE_SCHEMA] that are not the default ones, and its index on
    [email]. *)
Theorem setupOtpTable_creates_only_when_absent (w : Schema.Server) :
  let w' := snd (Schema.setupOtpTable w) in
  fst (Schema.setupOtpTable w) = Returned tt
  /\ (Schema.find_class Schema.OTP_TABLE_NAME (Schema.classes w) <> None
      \/ Schema.save_fault w <> None ->
      Schema.classes w' = Schema.classes w)
  /\ (Schema.find_class Schema.OTP_TABLE_NAME (Schema.classes w) = None ->
      Schema.save_fault w = None ->
      exists c : Schema.Class,
        Schema.classes w' = (Schema.classes w ++ [c])%list
        /\ Schema.find_class Schema.OTP_TABLE_NAME (Schema.classes w') = Some c
        /\ Schema.className c = Schema.OTP_TABLE_NAME
        /\ Schema.fields c
           = filter (fun f => negb (Schema.is_default_field f))
               (Schema.fields Schema.OTP_TABLE_SCHEMA)
        /\ Schema.indexes c
           = filter (fun i => negb (String.eqb (fst i) "_id_"))
               (Schema.indexes Schema.OTP_TABLE_SCHEMA)
        /\ Schema.classLevelPermissions c = []).
Proof.
  cbv zeta. destruct (setup_cases w) as (R & _ & _ & ->).
  change Schema.OTP_TABLE_NAME with "OTP".
  split; [exact R|]. split.
  - intros [H|H].
    + destruct (Schema.find_class "OTP" (Schema.classes w)); [|easy].
      reflexivity.
    + destruct (Schema.find_class "OTP" (Schema.classes w));
        destruct (Schema.save_fault w); easy.
  - intros Hn Hs. rewrite Hn, Hs.
    eexists. split; [reflexivity|]. split; [|repeat split].
    unfold Schema.find_class in *. rewrite find_app, Hn. reflexivity.
Qed.

(** X20. Setting the table up twice is setting it up once: the second
    run leaves the classes of the store as the first run left them. *)
Theorem setupOtpTable_is_idempotent (w : Schema.Server) :
  Schema.classes (snd (Schema.setupOtpTable (snd (Schema.setupOtpTable w))))
  = Schema.classes (snd (Schema.setupOtpTable w)).
Proof.
  destruct (setup_cases (snd (Schema.setupOtpTable w))) as (_ & _ & _ & ->).
  destruct (setup_cases w) as (_ & _ & -> & ->).
  destruct (Schema.find_class "OTP" (Schema.classes w)) as [c|] eqn:F.
  - now rewrite F.
  - destruct (Schema.save_fault w) as [se|].
    + now rewrite F.
    + unfold Schema.find_class in *. rewrite find_app, F. reflexivity.
Qed.

End SchemaSetup.

(** ** The further properties on the scenarios *)

Lemma verify_without_record_changes_nothing_witness :
  fst (run (validateAuthData Scenario.right_code Scenario.readme
              Scenario.client) Scenario.empty) = Threw NotFound
  /\ store (snd (run (validateAuthData Scenario.right_code Scenario.readme
                        Scenario.client) Scenario.empty)) = [].
Proof.
  destruct (verify_without_record_changes_nothing Scenario.empty
              Scenario.right_code Scenario.readme Scenario.client
              eq_refl eq_refl) as (A & B & _).
  split; [exact A|exact B].
Defined.

Lemma verify_success_means_stored_code_witness :
  exists r : Parse.Row,
    Parse.otp (Parse.attrs r) = Some "482913"
    /\ ~ In r (store (snd (run (validateAuthData Scenario.right_code
                                  Scenario.readme Scenario.client)
                             Scenario.live))).
Proof.
  destruct (verify_success_means_stored_code Scenario.live
              Scenario.right_code Scenario.readme Scenario.client
              eq_refl eq_refl) as (r & _ & C & _ & _ & N).
  exists r. split; [exact C|exact N].
Defined.

Lemma record_without_valid_expiry_never_expires_witness :
  fst (run (validateAuthData Scenario.wrong_code Scenario.readme
              Scenario.client)
         (at_time 4102444800000 (Scenario.world [Cases.undated] 2000)))
  <> Threw Expired.
Proof.
  exact (record_without_valid_expiry_never_expires
           (Scenario.world [Cases.undated] 2000) Scenario.wrong_code
           Scenario.readme Scenario.client Cases.undated 4102444800000
           eq_refl (or_introl eq_refl)).
Defined.

Lemma nan_maxAttempts_never_exhausts_witness :
  fst (run (validateAuthData (mkAuthData Cases.bob "000000") Cases.no_limit
              Scenario.client) Cases.two_users) = Threw Invalid.
Proof.
  exact (proj1 (nan_maxAttempts_never_exhausts Cases.two_users
                  (mkAuthData Cases.bob "000000") Cases.no_limit
                  Scenario.client Cases.bobs 301500 "135790"
                  (or_introl eq_refl) eq_refl eq_refl eq_refl
                  ltac:(vm_compute; discriminate) eq_refl
                  ltac:(discriminate))).
Defined.

Lemma two_users_unique_ids : unique_ids (store Cases.two_users).
Proof.
  unfold unique_ids. simpl. repeat constructor; simpl; intuition discriminate.
Defined.

Lemma verify_leaves_other_emails_witness :
  Parse.rows_for Cases.bob
    (store (snd (run (validateAuthData Scenario.right_code Scenario.readme
                        Scenario.client) Cases.two_users)))
  = [Cases.bobs].
Proof.
  exact (verify_leaves_other_emails Cases.two_users Scenario.right_code
           Scenario.readme Scenario.client Cases.bob two_users_unique_ids
           ltac:(discriminate)).
Defined.

Lemma challenge_leaves_other_emails_witness :
  Parse.rows_for Cases.bob
    (store (snd (run (challenge (mkChallengeData Scenario.alice) VUndefined
                        Scenario.readme) Cases.two_users)))
  = [Cases.bobs].
Proof.
  exact (proj1 (challenge_leaves_other_emails Cases.two_users
                  (mkChallengeData Scenario.alice) VUndefined Scenario.readme
                  Cases.bob two_users_unique_ids ltac:(discriminate))).
Defined.

Lemma well_formed_is_invariant_witness :
  well_formed (run_calls Cases.session Scenario.empty).
Proof.
  exact (well_formed_is_invariant Cases.session Scenario.empty
           (or_introl eq_refl)).
Defined.

Lemma only_the_issued_code_verifies_witness :
  exists code : string,
    fst (run (validateAuthData (mkAuthData Scenario.alice code)
                Scenario.readme Scenario.client)
           (at_time 301000
              (snd (run (challenge (mkChallengeData Scenario.alice)
                           VUndefined (Scenario.opts Scenario.smtp_down))
                      Scenario.empty)))) = Returned true.
Proof.
  destruct (only_the_issued_code_verifies Scenario.empty
              (mkChallengeData Scenario.alice) VUndefined
              (Scenario.opts Scenario.smtp_down) Scenario.readme
              Scenario.client 300000 301000
              eq_refl ltac:(vm_compute; discriminate)
              (Nat.le_0_l 1) eq_refl ltac:(vm_compute; discriminate))
    as (code & obj & _ & Iff).
  exists code. apply Iff. reflexivity.
Defined.

Lemma new_challenge_keeps_attempts_used_witness :
  fst (run (validateAuthData (mkAuthData Cases.bob "000000")
              (Scenario.opts_max (of_Z 2)) Scenario.client)
         (at_time 3000
            (snd (run (challenge (mkChallengeData Cases.bob) VUndefined
                         Scenario.readme) Cases.two_users))))
  = Threw AttemptsExhausted.
Proof.
  exact (new_challenge_keeps_attempts_used Cases.two_users
           (mkChallengeData Cases.bob) VUndefined Scenario.readme
           (Scenario.opts_max (of_Z 2)) Scenario.client 300000 3000
           Cases.bobs "000000"
           eq_refl ltac:(vm_compute; discriminate) eq_refl eq_refl
           ltac:(vm_compute; discriminate) ltac:(vm_compute; discriminate)).
Defined.

Lemma wrong_guesses_until_exhausted_witness :
  fst (run_all [Scenario.verify "000000" Scenario.readme;
                Scenario.verify "111111" Scenario.readme;
                Scenario.verify "222222" Scenario.readme] Scenario.live)
  = [Threw Invalid; Threw Invalid; Threw AttemptsExhausted].
Proof.
  exact (proj1 (wrong_guesses_until_exhausted Scenario.live Scenario.alice
                  "482913" Scenario.readme Scenario.client Scenario.fresh
                  301000 3 ["000000"; "111111"] "222222"
                  eq_refl eq_refl eq_refl eq_refl
                  ltac:(vm_compute; discriminate) eq_refl
                  ltac:(repeat constructor; discriminate)
                  ltac:(discriminate) eq_refl)).
Defined.

Lemma validateAuthData_unchanged_without_master_witness :
  run (V1.validateAuthData Scenario.wrong_code Scenario.readme) Scenario.live
  = run (validateAuthData Scenario.wrong_code Scenario.readme Scenario.client)
        Scenario.live.
Proof.
  symmetry.
  exact (validateAuthData_unchanged_without_master Scenario.wrong_code
           Scenario.readme Scenario.client Scenario.live eq_refl).
Defined.

Lemma hook_without_email_or_without_otp_witness :
  Hook.updateAuthDataAfterSave Cases.anonymous = Returned None
  /\ exists message : string,
       Hook.updateAuthDataAfterSave Cases.other_provider
       = Threw (TypeError message).
Proof.
  split.
  - exact (proj1 (hook_without_email_or_without_otp Cases.anonymous)
             (or_introl eq_refl)).
  - exact (proj2 (hook_without_email_or_without_otp Cases.other_provider)
             "a@b.com" eq_refl ltac:(discriminate) (or_introl eq_refl)).
Defined.

Lemma hook_aligns_otp_identity_witness :
  exists authData' otp' : string -> Hook.json,
    Hook.updateAuthDataAfterSave Cases.renamed
    = Returned (Some (Hook.JObject authData'))
    /\ authData' "otp" = Hook.JObject otp'
    /\ otp' "id" = Hook.JString "new@b.com".
Proof.
  destruct (proj2 (hook_aligns_otp_identity Cases.renamed "new@b.com"
                     _ _ eq_refl ltac:(discriminate) eq_refl eq_refl)
              ltac:(discriminate))
    as (a & o & R & A & I & _).
  exists a, o. split; [exact R|]. split; [exact A|exact I].
Defined.

Lemma hook_settles_after_one_save_witness :
  Hook.updateAuthDataAfterSave (Hook.saved Cases.renamed Cases.renamed_saved)
  = Returned None.
Proof.
  exact (hook_settles_after_one_save Cases.renamed Cases.renamed_saved
           eq_refl).
Defined.

Lemma setupOtpTable_creates_only_when_absent_witness :
  (exists c : Schema.Class,
     Schema.classes (snd (Schema.setupOtpTable Cases.new_store)) = [c]
     /\ Schema.fields c
        = [("email", Schema.FString); ("otp", Schema.FString);
           ("expiresAt", Schema.FDate); ("attempts", Schema.FNumber)])
  /\ Schema.classes (snd (Schema.setupOtpTable Cases.offline_store)) = [].
Proof.
  destruct (setupOtpTable_creates_only_when_absent Cases.new_store)
    as (_ & _ & Created).
  destruct (Created eq_refl eq_refl) as (c & Cl & _ & _ & F & _).
  destruct (setupOtpTable_creates_only_when_absent Cases.offline_store)
    as (_ & Kept & _).
  split.
  - exists c. split; [exact Cl|exact F].
  - apply Kept. right. discriminate.
Defined.
